(** * budget-verifier: bank statement against budget entries

    A shallow embedding of [main.go]: the record parser
    ([parseTransaction], [parseBankTransactions], [parseBudgetTransactions]),
    the filter engine ([loadFilters], [isFiltered]) and the reconciliation
    engine ([compareTransactions]), followed by the properties of the
    specification that concern them.

    Conventions.
    - A Go [int] is a [Z]; the program only compares amounts, and converts
      a [float64] into one in a single place ([float64_to_int]).
    - A [float64] is a primitive binary64 float of Rocq.
    - A call that returns [(T, error)] returns a [result T]; a run-time panic
      (index out of range) is the third outcome, [Panic].
    - [log.Printf] calls and the [verbose] flag only write to the log and are
      left out; the global [dateMatchRangeDays] is an explicit argument.
    - The Go standard library (time, strconv, regexp, io/ioutil,
      encoding/json) is an interface, [GoLib]; the development is generic in
      it, and [Std] gives one instance to run the code on concrete inputs. *)

From Stdlib Require Import ZArith QArith Qround Floats Lia Ascii String.
From stdpp Require Import list strings sorting.

Local Open Scope Z_scope.

(** ** Go values *)

(** Outcome of a call: a value, an [error], or a panic. *)
Inductive error :=
| ErrInvalidTimestamp (record : list string)
| ErrInvalidAmount (record : list string)
| ErrNoStart
| ErrReadFilterFile
| ErrUnmarshalFilterFile
| ErrRegexpSyntax.

Inductive result (A : Type) :=
| Ok (a : A)
| Err (e : error)
| Panic.
Arguments Ok {A} a.
Arguments Err {A} e.
Arguments Panic {A}.

(** [s[i]] on a slice: out of range (negative included) panics, which the
    caller sees as [None]. *)
Definition index {A : Type} (s : list A) (i : Z) : option A :=
  if i <? 0 then None else s !! Z.to_nat i.

(** [strings.Replace(s, ",", "", -1)]: every comma removed. *)
Fixpoint removeCommas (s : string) : string :=
  match s with
  | EmptyString => EmptyString
  | String c rest =>
      if Ascii.eqb c ","%char then removeCommas rest else String c (removeCommas rest)
  end.

(** The conversion [(int)(f)] of a [float64]: the fraction is discarded
    (truncation towards zero).  For a value that is no int64 (NaN, infinities,
    out of range) Go leaves the result to the implementation; amd64 gives
    the smallest int64, which is what is modelled. *)
Definition minInt64 : Z := - 2 ^ 63.
Definition maxInt64 : Z := 2 ^ 63 - 1.

Definition float64_to_int (f : float) : Z :=
  match Prim2SF f with
  | S754_zero _ => 0
  | S754_finite s m e =>
      let mag := if 0 <=? e then Z.shiftl (Z.pos m) e else Z.shiftr (Z.pos m) (- e) in
      let z := if s then - mag else mag in
      if (minInt64 <=? z) && (z <=? maxInt64) then z else minInt64
  | _ => minInt64
  end.

(** *** time.Time and time.Duration

    Every [time.Time] of the program comes from [time.Parse] with the layout
    [01/02/2006], which yields midnight UTC of a calendar day: a [Time] is
    the number of that day (days since 1970-01-01).  A [Duration] is an int64
    count of nanoseconds; [Time.Sub] saturates.  [Duration.Hours] is a
    [float64]; on the durations met here (whole days, or the two saturation
    values) every comparison the program makes on it agrees with the
    comparison of the exact quotients, which is what [Q] gives. *)
Definition Time := Z.
Definition Duration := Z.

Definition nsPerHour : Z := 3600000000000.
Definition nsPerDay : Z := 24 * nsPerHour.
Definition minDuration : Duration := minInt64.
Definition maxDuration : Duration := maxInt64.

Definition Time_Sub (t u : Time) : Duration :=
  let d := (t - u) * nsPerDay in
  if d <? minDuration then minDuration
  else if maxDuration <? d then maxDuration
  else d.

Definition Duration_Hours (d : Duration) : Q := d # 3600000000000.

(** [t.AddDate(0, 0, days)].  Go computes the new date in 64-bit seconds and
    wraps around when they overflow, from about 1.067e14 days on; the sum
    below is the date that [AddDate] returns as long as they do not, which for
    a date of the parser (years 0 to 9999) is the case of every [days] within
    [maxRangeDays] of zero.  The global [dateMatchRangeDays] is 7 and never
    assigned; the properties that speak of the date check for another range
    assume [rangeInBounds] of it. *)
Definition Time_AddDate_days (t : Time) (days : Z) : Time := t + days.

Definition maxRangeDays : Z := 100000000000000.
Definition rangeInBounds (days : Z) : Prop := - maxRangeDays <= days <= maxRangeDays.

(** The seconds in which Go keeps a date (since January 1 of year 1), and
    [AddDate] on them, with the wrap-around of its 64-bit arithmetic. *)
Definition wrapInt64 (z : Z) : Z := (z + 2 ^ 63) mod 2 ^ 64 - 2 ^ 63.
Definition Time_seconds (t : Time) : Z := (t + 719162) * 86400.
Definition Time_AddDate_seconds (t : Time) (days : Z) : Z :=
  wrapInt64 (Time_seconds t + days * 86400).
Definition Time_Before (t u : Time) : bool := t <? u.
Definition Time_After (t u : Time) : bool := u <? t.

(** [x < y] on the hours. *)
Definition Qltb (x y : Q) : bool := Qnum x * QDen y <? Qnum y * QDen x.

(** ** Data model *)

(** A [*Transaction] of the program points into one of the two slices that
    [compareTransactions] receives. *)
Inductive ref :=
| BankRef (bankIndex : nat)
| BudgetRef (budgetIndex : nat).

Record Transaction := {
  Timestamp : Time;
  Description : string;
  Details : string;
  Amount : Z;
  Matching : option ref
}.

Record Filter := {
  FilterRegex : string;
  MinAmount : Z;
  MaxAmount : Z
}.

(** [t.Matching = p] *)
Definition setMatching (t : Transaction) (p : option ref) : Transaction :=
  {| Timestamp := Timestamp t;
     Description := Description t;
     Details := Details t;
     Amount := Amount t;
     Matching := p |}.

(** ** The standard library the program calls *)
Class GoLib := {
  Regexp : Type;
  File : Type;
  (** [time.Parse(layout, value)] *)
  time_Parse : string -> string -> option Time;
  (** [strconv.ParseFloat(s, 64)] *)
  strconv_ParseFloat : string -> option float;
  (** [regexp.Compile(pattern)] and [re.MatchString(s)] *)
  regexp_Compile : string -> option Regexp;
  Regexp_MatchString : Regexp -> string -> bool;
  (** [ioutil.ReadFile(path)] *)
  ioutil_ReadFile : string -> option File;
  (** [json.Unmarshal(buf, &filters)] *)
  json_Unmarshal : File -> option (list Filter)
}.

Section Program.
Context {lib : GoLib}.

(** [regexp.MatchString]: compiles the pattern at each call; when that fails
    the result is [false] together with the error. *)
Definition regexp_MatchString (pattern s : string) : bool * option error :=
  match regexp_Compile pattern with
  | None => (false, Some ErrRegexpSyntax)
  | Some re => (Regexp_MatchString re s, None)
  end.

(** *** Record parser *)

Definition parseTransaction (record : list string)
    (timestampIndex descriptionIndex amountIndex detailsIndex : Z)
  : result Transaction :=
  let refTime := "01/02/2006"%string in
  match index record timestampIndex with
  | None => Panic
  | Some ts =>
  match time_Parse refTime ts with
  | None => Err (ErrInvalidTimestamp record)
  | Some t =>
  match index record amountIndex with
  | None => Panic
  | Some am =>
  match strconv_ParseFloat (removeCommas am) with
  | None => Err (ErrInvalidAmount record)
  | Some a =>
  match (if 0 <? detailsIndex then index record detailsIndex else Some EmptyString) with
  | None => Panic
  | Some d =>
  match index record descriptionIndex with
  | None => Panic
  | Some descr =>
      Ok {| Timestamp := t;
            Description := descr;
            Details := d;
            Amount := float64_to_int (a * 100)%float;
            Matching := None |}
  end end end end end end.

(** The loop of both profiles: a record that fails to parse is logged and
    skipped, a panic ends the run. *)
Fixpoint parseRecords (records : list (list string))
    (timestampIndex descriptionIndex amountIndex detailsIndex : Z)
    (transactions : list Transaction) : result (list Transaction) :=
  match records with
  | [] => Ok transactions
  | record :: rest =>
      match parseTransaction record timestampIndex descriptionIndex amountIndex detailsIndex with
      | Panic => Panic
      | Err _ =>
          parseRecords rest timestampIndex descriptionIndex amountIndex detailsIndex transactions
      | Ok transaction =>
          parseRecords rest timestampIndex descriptionIndex amountIndex detailsIndex
            (transactions ++ [transaction])
      end
  end.

(** The condition of the header scan. *)
Definition isHeaderRecord (record : list string) : bool :=
  (3 <? Z.of_nat (length record))
  && bool_decide (index record 0 = Some "Date"%string)
  && bool_decide (index record 1 = Some "Description"%string)
  && bool_decide (index record 2 = Some "Amount"%string).

(** The header scan, from record [i] on: no [break], so each header record
    met overwrites [start]. *)
Fixpoint findStart (bankRecords : list (list string)) (i : Z) (start : Z) : Z :=
  match bankRecords with
  | [] => start
  | record :: rest =>
      if isHeaderRecord record then findStart rest (i + 1) (i + 2)
      else findStart rest (i + 1) start
  end.

Definition parseBankTransactions (bankRecords : list (list string))
  : result (list Transaction) :=
  let start := findStart bankRecords 0 (-1) in
  if start <? 0 then Err ErrNoStart
  else parseRecords (drop (Z.to_nat start) bankRecords) 0 1 2 (-1) [].

Definition parseBudgetTransactions (budgetRecords : list (list string))
  : result (list Transaction) :=
  parseRecords (drop 1 budgetRecords) 0 2 4 3 [].

(** *** Filter engine *)

Definition loadFilters (filterPath : string) : result (list Filter) :=
  match ioutil_ReadFile filterPath with
  | None => Err ErrReadFilterFile
  | Some buf =>
      match json_Unmarshal buf with
      | None => Err ErrUnmarshalFilterFile
      | Some filters => Ok filters
      end
  end.

Fixpoint isFiltered (t : Transaction) (filters : list Filter) : bool :=
  match filters with
  | [] => false
  | f :: rest =>
      let '(matched, _) := regexp_MatchString (FilterRegex f) (Description t) in
      if matched && (MinAmount f <=? Amount t) && (Amount t <=? MaxAmount f)
      then true
      else isFiltered t rest
  end.

(** *** Reconciliation engine *)

(** The two slices, whose elements the engine writes through pointers, and
    the result under construction. *)
Record State := {
  bankTransactions : list Transaction;
  budgetTransactions : list Transaction;
  missingTransactions : list Transaction
}.

(** The inner loop over the budget entries, from [budgetIndex] on: the
    pointers to the entries of the same amount that are not matched yet. *)
Fixpoint potentialMatchesFrom (bankT : Transaction) (budget : list Transaction)
    (budgetIndex : nat) : list nat :=
  match budget with
  | [] => []
  | budgetT :: rest =>
      if bool_decide (Amount bankT = Amount budgetT) then
        match Matching budgetT with
        | Some _ => potentialMatchesFrom bankT rest (S budgetIndex)
        | None => budgetIndex :: potentialMatchesFrom bankT rest (S budgetIndex)
        end
      else potentialMatchesFrom bankT rest (S budgetIndex)
  end.

(** The loop over [potentialMatches]; [pm] points into the budget slice. *)
Fixpoint selectClosest (bankT : Transaction) (budget : list Transaction)
    (potentialMatches : list nat) (closest : option nat) (closestDuration : Q)
  : option nat * Q :=
  match potentialMatches with
  | [] => (closest, closestDuration)
  | pm :: rest =>
      match budget !! pm with
      | None => selectClosest bankT budget rest closest closestDuration
      | Some pmT =>
          let d := Duration_Hours (Time_Sub (Timestamp bankT) (Timestamp pmT)) in
          if Qle_bool 0 d && Qltb d closestDuration
          then selectClosest bankT budget rest (Some pm) d
          else selectClosest bankT budget rest closest closestDuration
      end
  end.

(** The date check on the closest candidate. *)
Definition inDateRange (dateMatchRangeDays : Z) (bankT closestT : Transaction) : bool :=
  Time_Before (Timestamp closestT) (Time_AddDate_days (Timestamp bankT) dateMatchRangeDays)
  && Time_After (Timestamp closestT) (Time_AddDate_days (Timestamp bankT) (-1 * dateMatchRangeDays)).

(** [bankT.Matching = closest; closest.Matching = bankT] *)
Definition link (st : State) (bankIndex : nat) (bankT : Transaction)
    (closest : nat) (closestT : Transaction) : State :=
  {| bankTransactions :=
       <[bankIndex := setMatching bankT (Some (BudgetRef closest))]> (bankTransactions st);
     budgetTransactions :=
       <[closest := setMatching closestT (Some (BankRef bankIndex))]> (budgetTransactions st);
     missingTransactions := missingTransactions st |}.

(** One turn of the loop over the bank entries. *)
Definition matchBankIndex (dateMatchRangeDays : Z) (filters : list Filter)
    (bankIndex : nat) (st : State) : State :=
  match bankTransactions st !! bankIndex with
  | None => st
  | Some bankT =>
      if isFiltered bankT filters then st
      else
        let potentialMatches := potentialMatchesFrom bankT (budgetTransactions st) 0 in
        let st1 :=
          if bool_decide (0 < length potentialMatches)%nat then
            let '(closest, _) :=
              selectClosest bankT (budgetTransactions st) potentialMatches None (99999 # 1) in
            match closest with
            | None => st
            | Some c =>
                match budgetTransactions st !! c with
                | None => st
                | Some closestT =>
                    if inDateRange dateMatchRangeDays bankT closestT
                    then link st bankIndex bankT c closestT
                    else st
                end
            end
          else st in
        match bankTransactions st1 !! bankIndex with
        | None => st1
        | Some bankT' =>
            match Matching bankT' with
            | Some _ => st1
            | None =>
                {| bankTransactions := bankTransactions st1;
                   budgetTransactions := budgetTransactions st1;
                   missingTransactions := missingTransactions st1 ++ [bankT'] |}
            end
        end
  end.

(** The state after the first [n] turns. *)
Definition compareLoop (dateMatchRangeDays : Z) (filters : list Filter)
    (n : nat) (st : State) : State :=
  fold_left (fun st bankIndex => matchBankIndex dateMatchRangeDays filters bankIndex st)
    (seq 0 n) st.

(** [compareTransactions]: the missing transactions, and the two slices as
    the call leaves them.  The [error] of the Go function is always [nil]. *)
Definition compareTransactions (dateMatchRangeDays : Z)
    (bankTransactions0 budgetTransactions0 : list Transaction) (filters : list Filter)
  : State :=
  compareLoop dateMatchRangeDays filters (length bankTransactions0)
    {| bankTransactions := bankTransactions0;
       budgetTransactions := budgetTransactions0;
       missingTransactions := [] |}.

End Program.

(** The value of the global [dateMatchRangeDays]. *)
Definition dateMatchRangeDays : Z := 7.

(** ** An instance of the library

    Enough of the standard library to run the program on concrete inputs:
    - [time.Parse] for the one layout the program uses: two digits, a slash,
      two digits, a slash, four digits, the month and the day in range;
    - [strconv.ParseFloat] on plain decimal numerals (a sign, digits, a point,
      digits) with a mantissa below 2^53 and at most 18 decimals, where the
      correctly rounded value is the quotient of two exact floats; other
      numerals (exponents, hexadecimal, infinities) are rejected here;
    - a regular expression engine restricted to literal patterns (letters,
      digits, spaces), which match when the text contains them; any other
      pattern is rejected here, as Go rejects the pattern made of one opening
      parenthesis;
    - a file system given by [files], a file being the filter list that its
      JSON text encodes. *)
Module Std.

Definition digit (c : ascii) : option Z :=
  let n := Z.of_nat (nat_of_ascii c) in
  if (48 <=? n) && (n <=? 57) then Some (n - 48) else None.

(** A number of exactly [n] digits at the head of [s]. *)
Fixpoint getnum (n : nat) (s : string) (acc : Z) : option (Z * string) :=
  match n with
  | O => Some (acc, s)
  | S n' =>
      match s with
      | String c rest =>
          match digit c with
          | Some d => getnum n' rest (acc * 10 + d)
          | None => None
          end
      | EmptyString => None
      end
  end.

Definition skipChar (c : ascii) (s : string) : option string :=
  match s with
  | String c' rest => if Ascii.eqb c c' then Some rest else None
  | EmptyString => None
  end.

Definition isLeap (year : Z) : bool :=
  (year mod 4 =? 0) && (negb (year mod 100 =? 0) || (year mod 400 =? 0)).

Definition daysIn (month year : Z) : Z :=
  if month =? 2 then (if isLeap year then 29 else 28)
  else if (month =? 4) || (month =? 6) || (month =? 9) || (month =? 11) then 30
  else 31.

(** Day number of a date of the proleptic Gregorian calendar. *)
Definition daysFromCivil (year month day : Z) : Z :=
  let y := if month <=? 2 then year - 1 else year in
  let era := y / 400 in
  let yoe := y - era * 400 in
  let mp := if 2 <? month then month - 3 else month + 9 in
  let doy := (153 * mp + 2) / 5 + day - 1 in
  let doe := yoe * 365 + yoe / 4 - yoe / 100 + doy in
  era * 146097 + doe - 719468.

Definition parseDate (layout value : string) : option Time :=
  if bool_decide (layout = "01/02/2006"%string) then
    match getnum 2 value 0 with
    | Some (month, v1) =>
    match skipChar "/" v1 with
    | Some v2 =>
    match getnum 2 v2 0 with
    | Some (day, v3) =>
    match skipChar "/" v3 with
    | Some v4 =>
    match getnum 4 v4 0 with
    | Some (year, EmptyString) =>
        if (1 <=? month) && (month <=? 12) && (1 <=? day) && (day <=? daysIn month year)
        then Some (daysFromCivil year month day)
        else None
    | _ => None
    end
    | None => None
    end
    | None => None
    end
    | None => None
    end
    | None => None
    end
  else None.

(** The digits at the head of [s]: the number they extend [acc] to, how many
    they are, and the rest of [s]. *)
Fixpoint readDigits (s : string) (acc : Z) (n : Z) : Z * Z * string :=
  match s with
  | String c rest =>
      match digit c with
      | Some d => readDigits rest (acc * 10 + d) (n + 1)
      | None => (acc, n, s)
      end
  | EmptyString => (acc, n, s)
  end.

Definition floatOfZ (z : Z) : float := PrimFloat.of_uint63 (Uint63.of_Z z).

Definition parseDecimal (s : string) : option float :=
  let '(neg, s1) :=
    match s with
    | String "-" rest => (true, rest)
    | String "+" rest => (false, rest)
    | _ => (false, s)
    end in
  let '(intPart, intDigits, s2) := readDigits s1 0 0 in
  let '(mantissa, decimals, s3) :=
    match s2 with
    | String "." rest => readDigits rest intPart 0
    | _ => (intPart, 0, s2)
    end in
  match s3 with
  | EmptyString =>
      if (0 <? intDigits + decimals) && (mantissa <? 2 ^ 53) && (decimals <=? 18) then
        let f := (floatOfZ mantissa / floatOfZ (10 ^ decimals))%float in
        Some (if neg then (- f)%float else f)
      else None
  | _ => None
  end.

Definition isLiteralChar (c : ascii) : bool :=
  let n := nat_of_ascii c in
  ((48 <=? n) && (n <=? 57) || (65 <=? n) && (n <=? 90) || (97 <=? n) && (n <=? 122)
   || (n =? 32))%nat.

Fixpoint allLiteral (pattern : string) : bool :=
  match pattern with
  | EmptyString => true
  | String c rest => isLiteralChar c && allLiteral rest
  end.

Fixpoint contains (s sub : string) : bool :=
  String.prefix sub s ||
  match s with
  | EmptyString => false
  | String _ rest => contains rest sub
  end.

#[export] Instance lib (files : string -> option (list Filter)) : GoLib := {|
  Regexp := string;
  File := list Filter;
  time_Parse := parseDate;
  strconv_ParseFloat := parseDecimal;
  regexp_Compile := fun pattern => if allLiteral pattern then Some pattern else None;
  Regexp_MatchString := fun re s => contains s re;
  ioutil_ReadFile := files;
  json_Unmarshal := Some
|}.

End Std.

(** ** Predicates of the properties *)

(** The hours from a budget entry to the bank entry, as the loop computes them. *)
Definition hoursBefore (bankT pmT : Transaction) : Q :=
  Duration_Hours (Time_Sub (Timestamp bankT) (Timestamp pmT)).

(** The candidate that the two inner loops select for [bankT]. *)
Definition selected (bankT : Transaction) (budget : list Transaction) : option nat :=
  fst (selectClosest bankT budget (potentialMatchesFrom bankT budget 0) None (99999 # 1)).

(** A budget entry that [bankT] may take: same amount, not matched, not
    later than [bankT]. *)
Definition eligible (bankT cK : Transaction) : Prop :=
  Amount bankT = Amount cK /\ Matching cK = None /\ Timestamp cK <= Timestamp bankT.

(** The link of bank entry [i] (which is [t]) to budget entry [j] (which is
    [cT]) is the one the algorithm owes: same amount, not after [t], inside
    the date range, and closest among the budget entries that no earlier bank
    entry took, the first of them on a tie. *)
Definition bestMatch (dateMatchRangeDays : Z) (budget : list Transaction) (i : nat) (t : Transaction)
    (j : nat) (cT : Transaction) : Prop :=
  Amount t = Amount cT
  /\ Timestamp cT <= Timestamp t
  /\ Z.abs (Timestamp t - Timestamp cT) < dateMatchRangeDays
  /\ forall k cK,
      budget !! k = Some cK ->
      Amount t = Amount cK ->
      Timestamp cK <= Timestamp t ->
      (forall i', Matching cK = Some (BankRef i') -> (i <= i')%nat) ->
      Timestamp cK <= Timestamp cT /\ (Timestamp cK = Timestamp cT -> (j <= k)%nat).

(** The invariant of the loop after [n] turns, [bank0] and [budget0] being
    the slices the loop started from. *)
Record Inv (dateMatchRangeDays : Z) (bank0 budget0 : list Transaction)
    (n : nat) (bank budget : list Transaction) : Prop := {
  inv_bank_data : forall i t, bank !! i = Some t -> bank0 !! i = Some (setMatching t None);
  inv_budget_data : forall j t, budget !! j = Some t -> budget0 !! j = Some (setMatching t None);
  inv_bank_length : length bank = length bank0;
  inv_budget_length : length budget = length budget0;
  inv_bank_rest : forall i t, (n <= i)%nat -> bank !! i = Some t -> Matching t = None;
  inv_bank_link : forall i t p,
      bank !! i = Some t -> Matching t = Some p ->
      exists j cT, p = BudgetRef j /\ budget !! j = Some cT
                   /\ Matching cT = Some (BankRef i) /\ bestMatch dateMatchRangeDays budget i t j cT;
  inv_budget_link : forall j cT p,
      budget !! j = Some cT -> Matching cT = Some p ->
      exists i t, p = BankRef i /\ (i < n)%nat /\ bank !! i = Some t
                  /\ Matching t = Some (BudgetRef j)
}.

(** A bank entry that belongs to the result: not filtered and not matched. *)
Definition isMissing {lib : GoLib} (filters : list Filter) (t : Transaction) : bool :=
  negb (isFiltered t filters)
  && match Matching t with
     | Some _ => false
     | None => true
     end.

(** What one rule says of [t]: the value of the condition of [isFiltered]. *)
Definition ruleMatches {lib : GoLib} (t : Transaction) (f : Filter) : bool :=
  fst (regexp_MatchString (FilterRegex f) (Description t))
  && (MinAmount f <=? Amount t) && (Amount t <=? MaxAmount f).

(** ** The wording of the specification, where the code is compared with it *)

(** The date range as the specification words it: both ends included. *)
Definition spec_inDateRange (dateMatchRangeDays : Z) (bankT closestT : Transaction) : bool :=
  Z.abs (Timestamp bankT - Timestamp closestT) <=? dateMatchRangeDays.

(** The header as the specification words it: the first three fields are
    the three labels. *)
Definition spec_isHeaderRecord (record : list string) : bool :=
  bool_decide (take 3 record = ["Date"; "Description"; "Amount"]%string).

(** The first header record of the input, if any. *)
Fixpoint spec_findHeader (bankRecords : list (list string)) (i : nat) : option nat :=
  match bankRecords with
  | [] => None
  | record :: rest =>
      if spec_isHeaderRecord record then Some i else spec_findHeader rest (S i)
  end.

Definition spec_parseBankTransactions {lib : GoLib} (bankRecords : list (list string))
  : result (list Transaction) :=
  match spec_findHeader bankRecords 0 with
  | None => Err ErrNoStart
  | Some i => parseRecords (drop (i + 2) bankRecords) 0 1 2 (-1) []
  end.

(** [round(value * 100)] on the exact value of the amount text. *)
Definition spec_roundCents (value : Q) : Z := Qfloor (value * 100 + (1 # 2)).

(** Loading as the specification words it: a pattern that does not compile
    is an error of the load. *)
Definition spec_loadFilters {lib : GoLib} (filterPath : string) : result (list Filter) :=
  match loadFilters filterPath with
  | Ok filters =>
      if forallb (fun f => match regexp_Compile (FilterRegex f) with
                           | Some _ => true
                           | None => false
                           end) filters
      then Ok filters
      else Err ErrRegexpSyntax
  | r => r
  end.

(** ** Inputs of the examples *)
Module Examples.

Definition noFiles : string -> option (list Filter) := fun _ => None.

(** A filter file whose only rule has the pattern made of an opening
    parenthesis, which is no regular expression. *)
Definition badRule : Filter :=
  {| FilterRegex := "("; MinAmount := -100000; MaxAmount := 100000 |}.
Definition badFilterFile : string -> option (list Filter) :=
  fun path => if bool_decide (path = "filter.json"%string) then Some [badRule] else None.

Definition transferRule : Filter :=
  {| FilterRegex := "TRANSFER"; MinAmount := -100000; MaxAmount := 0 |}.

Definition entry (day : Time) (description : string) (amount : Z) : Transaction :=
  {| Timestamp := day;
     Description := description;
     Details := EmptyString;
     Amount := amount;
     Matching := None |}.

(** Day numbers: 2024-01-02 is 19724, 2024-01-10 is 19732. *)
Definition bankJan10 : Transaction := entry 19732 "GROCERY STORE" (-500).
Definition bankJan11 : Transaction := entry 19733 "GROCERY STORE" (-500).
Definition bankTransfer : Transaction := entry 19732 "ONLINE TRANSFER" (-500).
Definition budgetJan03 : Transaction := entry 19725 "groceries" (-500).
Definition budgetJan05 : Transaction := entry 19727 "groceries" (-500).
Definition budgetJan08 : Transaction := entry 19730 "groceries" (-500).
Definition budgetJan08b : Transaction := entry 19730 "more groceries" (-500).

Definition headerRecord : list string := ["Date"; "Description"; "Amount"; "Running Bal."].
Definition shortHeaderRecord : list string := ["Date"; "Description"; "Amount"].
Definition balanceRecord : list string := ["01/01/2024"; "Beginning balance"; EmptyString; "100.00"].
Definition coffeeRecord : list string := ["01/02/2024"; "COFFEE"; "-4.50"; "95.50"].
Definition lunchRecord : list string := ["01/03/2024"; "LUNCH"; "-12.00"; "83.50"].
Definition centsRecord : list string := ["01/02/2024"; "COFFEE"; "0.29"].
Definition dateOnlyRecord : list string := ["01/02/2024"].

End Examples.

(** ** The rest of the program: reading the files and [main]

    What the operating system answers to the program.  A file that [os.Open]
    opens is given as the results of the calls of [r.Read()] on the CSV
    reader, in order, up to the one that returns [io.EOF]; the reader has
    [FieldsPerRecord = -1], so that a record has any number of fields. *)
Inductive csvRead :=
| CsvRecord (fields : list string)
| CsvError.

Class GoOS := {
  (** [os.Args] *)
  os_Args : list string;
  (** [os.Open(p)], read through [csv.NewReader] *)
  os_Open : string -> option (list csvRead);
  (** [filepath.Abs(filepath.Dir(p))] *)
  filepath_AbsDir : string -> option string;
  (** [filepath.Join(dir, name)] *)
  filepath_Join : string -> string -> string
}.

Inductive readError :=
| ErrOpen
| ErrRead.

Inductive fileResult :=
| FileRecords (records : list (list string))
| FileError (e : readError).

(** How a run of [main] ends: [log.Fatal] at one of its checks, a panic, or
    the report on the missing transactions. *)
Inductive fatal :=
| FatalArgs
| FatalReadFile (path : string) (e : readError)
| FatalParse (path : string) (e : error)
| FatalWorkingDir
| FatalLoadFilters (filterPath : string) (e : error).

Inductive exit :=
| ExitFatal (f : fatal)
| ExitPanic
| ExitReport (missing : list Transaction).

Definition FilterFileName : string := "filter.json".

Section MainProgram.
Context {lib : GoLib} {os : GoOS}.

(** The loop of [readFile]. *)
Fixpoint readRecords (reads : list csvRead) (records : list (list string)) : fileResult :=
  match reads with
  | [] => FileRecords records
  | CsvError :: _ => FileError ErrRead
  | CsvRecord fields :: rest => readRecords rest (records ++ [fields])
  end.

Definition readFile (p : string) : fileResult :=
  match os_Open p with
  | None => FileError ErrOpen
  | Some reads => readRecords reads []
  end.

Definition main : exit :=
  match os_Args with
  | [arg0; bankPath; budgetPath] =>
      match readFile bankPath with
      | FileError e => ExitFatal (FatalReadFile bankPath e)
      | FileRecords bankRecords =>
      match parseBankTransactions bankRecords with
      | Panic => ExitPanic
      | Err e => ExitFatal (FatalParse bankPath e)
      | Ok bank =>
      match readFile budgetPath with
      | FileError e => ExitFatal (FatalReadFile budgetPath e)
      | FileRecords budgetRecords =>
      match parseBudgetTransactions budgetRecords with
      | Panic => ExitPanic
      | Err e => ExitFatal (FatalParse budgetPath e)
      | Ok budget =>
      match filepath_AbsDir arg0 with
      | None => ExitFatal FatalWorkingDir
      | Some workingDir =>
      let filterPath := filepath_Join workingDir FilterFileName in
      match loadFilters filterPath with
      | Panic => ExitPanic
      | Err e => ExitFatal (FatalLoadFilters filterPath e)
      | Ok filters =>
          ExitReport
            (missingTransactions
               (compareTransactions dateMatchRangeDays bank budget filters))
      end end end end end end
  | _ => ExitFatal FatalArgs
  end.

End MainProgram.

(** Whether an entry has a link. *)
Definition isLinked (t : Transaction) : bool :=
  match Matching t with
  | Some _ => true
  | None => false
  end.

(** The number of entries of a slice that have a link. *)
Definition linkedCount (l : list Transaction) : nat := length (List.filter isLinked l).

(** What holds of every link of a bank entry, whatever turn set it. *)
Definition linksBounded (dateMatchRangeDays : Z) (bank budget : list Transaction) : Prop :=
  forall i t p,
    bank !! i = Some t -> Matching t = Some p ->
    exists j cT,
      p = BudgetRef j /\ budget !! j = Some cT
      /\ Amount t = Amount cT
      /\ 0 <= Timestamp t - Timestamp cT < dateMatchRangeDays
      /\ Timestamp t - Timestamp cT <= 4166.

(** The successful parse of a record, if any. *)
Definition parsedRecord {lib : GoLib} (ti di ai xi : Z) (record : list string)
  : option Transaction :=
  match parseTransaction record ti di ai xi with
  | Ok t => Some t
  | _ => None
  end.

(** An operating system for the examples: the arguments, the CSV files by
    path, the directory of the executable. *)
Module StdOS.

#[export] Instance os (args : list string) (files : string -> option (list csvRead))
    (workingDir : string) : GoOS := {|
  os_Args := args;
  os_Open := files;
  filepath_AbsDir := fun _ => Some workingDir;
  filepath_Join := fun dir name => (dir ++ "/" ++ name)%string
|}.

End StdOS.

Module MoreExamples.

Definition budgetHeader : list string := ["Date"; "Account"; "Payee"; "Memo"; "Amount"].
Definition budgetCoffee : list string :=
  ["01/02/2024"; "Checking"; "Cafe"; "flat white"; "-4.50"].
Definition budgetRent : list string :=
  ["01/01/2024"; "Checking"; "Landlord"; "january"; "-1,200.00"].
Definition rentRecord : list string := ["01/03/2024"; "RENT"; "-1,200.00"; "10.00"].
Definition garbageRecord : list string := ["total"; "n/a"; "n/a"; "n/a"; "n/a"].

Definition bankCsv : list csvRead :=
  [CsvRecord ["Account summary"];
   CsvRecord Examples.headerRecord;
   CsvRecord Examples.balanceRecord;
   CsvRecord Examples.coffeeRecord;
   CsvRecord Examples.lunchRecord;
   CsvRecord rentRecord].

Definition budgetCsv : list csvRead :=
  [CsvRecord budgetHeader; CsvRecord budgetRent; CsvRecord garbageRecord;
   CsvRecord budgetCoffee].

Definition csvFiles (path : string) : option (list csvRead) :=
  if bool_decide (path = "bank.csv"%string) then Some bankCsv
  else if bool_decide (path = "budget.csv"%string) then Some budgetCsv
  else if bool_decide (path = "broken.csv"%string)
       then Some [CsvRecord Examples.headerRecord; CsvError; CsvRecord Examples.coffeeRecord]
  else None.

Definition filterFiles (path : string) : option (list Filter) :=
  if bool_decide (path = "/opt/budget/filter.json"%string)
  then Some [Examples.transferRule]
  else None.

Definition emptyRangeRule : Filter :=
  {| FilterRegex := "GROCERY"; MinAmount := 0; MaxAmount := -1 |}.

End MoreExamples.

(** * Properties *)

(** ** Hours and days *)

Lemma Qltb_lt (x y : Q) : Qltb x y = true <-> (x < y)%Q.
Proof. unfold Qltb, Qlt. apply Z.ltb_lt. Qed.

Lemma Hours_nonneg (d : Duration) : Qle_bool 0 (Duration_Hours d) = true <-> 0 <= d.
Proof.
  rewrite Qle_bool_iff. unfold Qle, Duration_Hours. simpl. lia.
Qed.

Lemma Hours_lt (d d' : Duration) :
  (Duration_Hours d < Duration_Hours d')%Q <-> d < d'.
Proof. unfold Qlt, Duration_Hours. simpl. lia. Qed.

Lemma Hours_le (d d' : Duration) :
  (Duration_Hours d <= Duration_Hours d')%Q <-> d <= d'.
Proof. unfold Qle, Duration_Hours. simpl. lia. Qed.

Lemma Hours_lt_cap (d : Duration) :
  (Duration_Hours d < 99999 # 1)%Q <-> d < 99999 * nsPerHour.
Proof. unfold Qlt, Duration_Hours, nsPerHour. simpl. lia. Qed.

Lemma Hours_cap_le (d : Duration) :
  (99999 # 1 <= Duration_Hours d)%Q <-> 99999 * nsPerHour <= d.
Proof. unfold Qle, Duration_Hours, nsPerHour. simpl. lia. Qed.

Lemma Time_Sub_cases (t u : Time) :
  (Time_Sub t u = (t - u) * nsPerDay /\ minDuration <= (t - u) * nsPerDay <= maxDuration)
  \/ (Time_Sub t u = minDuration /\ (t - u) * nsPerDay < minDuration)
  \/ (Time_Sub t u = maxDuration /\ maxDuration < (t - u) * nsPerDay).
Proof.
  unfold Time_Sub.
  destruct (Z.ltb_spec ((t - u) * nsPerDay) minDuration); [right; left; lia |].
  destruct (Z.ltb_spec maxDuration ((t - u) * nsPerDay)); [right; right; lia |].
  left. lia.
Qed.

Lemma Time_Sub_nonneg (t u : Time) : 0 <= Time_Sub t u <-> u <= t.
Proof.
  destruct (Time_Sub_cases t u) as [[-> H] | [[-> H] | [-> H]]];
    revert H; unfold nsPerDay, nsPerHour, minDuration, maxDuration, minInt64, maxInt64;
    lia.
Qed.

(** Below the initial [closestDuration] the subtraction did not saturate. *)
Lemma Time_Sub_small (t u : Time) :
  0 <= Time_Sub t u < 99999 * nsPerHour ->
  Time_Sub t u = (t - u) * nsPerDay.
Proof.
  destruct (Time_Sub_cases t u) as [[-> H] | [[-> H] | [-> H]]];
    revert H; unfold nsPerDay, nsPerHour, minDuration, maxDuration, minInt64, maxInt64;
    lia.
Qed.

Lemma Time_Sub_le_days (t u v : Time) :
  0 <= Time_Sub t u < 99999 * nsPerHour ->
  Time_Sub t u <= Time_Sub t v -> v <= u.
Proof.
  intros Hs Hle. pose proof (Time_Sub_small _ _ Hs) as Es. rewrite Es in Hle, Hs.
  destruct (Time_Sub_cases t v) as [[E H] | [[E H] | [E H]]]; rewrite E in Hle;
    revert H Hle Hs;
    unfold nsPerDay, nsPerHour, minDuration, maxDuration, minInt64, maxInt64; lia.
Qed.

Lemma Time_Sub_lt_days (t u v : Time) :
  0 <= Time_Sub t u < 99999 * nsPerHour ->
  Time_Sub t u < Time_Sub t v -> v < u.
Proof.
  intros Hs Hle. pose proof (Time_Sub_small _ _ Hs) as Es. rewrite Es in Hle, Hs.
  destruct (Time_Sub_cases t v) as [[E H] | [[E H] | [E H]]]; rewrite E in Hle;
    revert H Hle Hs;
    unfold nsPerDay, nsPerHour, minDuration, maxDuration, minInt64, maxInt64; lia.
Qed.

Lemma Time_Sub_cap_days (t u : Time) :
  0 <= Time_Sub t u < 99999 * nsPerHour <-> 0 <= t - u <= 4166.
Proof.
  destruct (Time_Sub_cases t u) as [[-> H] | [[-> H] | [-> H]]];
    revert H; unfold nsPerDay, nsPerHour, minDuration, maxDuration, minInt64, maxInt64;
    lia.
Qed.

(** Within the bound, and for a date of the years 0 to 9999, the seconds do
    not wrap: [Time_AddDate_days] is the date that Go computes. *)
Lemma Time_AddDate_days_exact (t : Time) (days : Z) :
  -719528 <= t <= 2932896 ->
  rangeInBounds days ->
  Time_AddDate_seconds t days = Time_seconds (Time_AddDate_days t days).
Proof.
  unfold rangeInBounds, maxRangeDays, Time_AddDate_seconds, Time_seconds,
    Time_AddDate_days, wrapInt64.
  intros Ht Hd. rewrite Z.mod_small by lia. lia.
Qed.

Lemma inDateRange_iff (R : Z) (bankT closestT : Transaction) :
  inDateRange R bankT closestT = true
  <-> Z.abs (Timestamp bankT - Timestamp closestT) < R.
Proof.
  unfold inDateRange, Time_Before, Time_After, Time_AddDate_days, Time.
  rewrite andb_true_iff, !Z.ltb_lt. lia.
Qed.

(** ** The candidate pool *)

Lemma potentialMatchesFrom_elem (bankT : Transaction) (budget : list Transaction)
    (off k : nat) :
  k ∈ potentialMatchesFrom bankT budget off
  <-> (off <= k)%nat
      /\ exists cK, budget !! (k - off)%nat = Some cK
                    /\ Amount bankT = Amount cK /\ Matching cK = None.
Proof.
  revert off. induction budget as [| budgetT rest IH]; intros off; simpl.
  - split; [intros H; inversion H | intros (_ & cK & H & _); discriminate].
  - assert (Hrest : k ∈ potentialMatchesFrom bankT rest (S off)
                    <-> (off < k)%nat
                        /\ exists cK, (budgetT :: rest) !! (k - off)%nat = Some cK
                                      /\ Amount bankT = Amount cK /\ Matching cK = None).
    { rewrite IH. split.
      - intros (Hle & cK & Hk & HA & HM). split; [lia |].
        exists cK. replace (k - off)%nat with (S (k - S off)) by lia. auto.
      - intros (Hlt & cK & Hk & HA & HM). split; [lia |].
        exists cK. replace (k - off)%nat with (S (k - S off)) in Hk by lia. auto. }
    assert (Hhead : forall P : Prop,
               (P <-> Amount bankT = Amount budgetT /\ Matching budgetT = None) ->
               ((k = off /\ P) \/ k ∈ potentialMatchesFrom bankT rest (S off))
               <-> (off <= k)%nat
                   /\ exists cK, (budgetT :: rest) !! (k - off)%nat = Some cK
                                 /\ Amount bankT = Amount cK /\ Matching cK = None).
    { intros P HP. rewrite Hrest. split.
      - intros [[-> Hp] | [Hlt H]]; [| split; [lia | exact H]].
        split; [lia |]. exists budgetT. rewrite Nat.sub_diag. simpl.
        apply HP in Hp. tauto.
      - intros (Hle & cK & Hk & HA & HM).
        destruct (decide (k = off)) as [-> | Hne].
        + left. split; [reflexivity |]. rewrite Nat.sub_diag in Hk. simpl in Hk.
          inversion Hk; subst. apply HP. auto.
        + right. split; [lia |]. eauto. }
    case_bool_decide as HA.
    + destruct (Matching budgetT) as [p |] eqn:HM.
      * rewrite <- (Hhead False); [tauto |]. split; [tauto | intros [_ ?]; discriminate].
      * rewrite elem_of_cons, <- (Hhead True); tauto.
    + rewrite <- (Hhead False); tauto.
Qed.

Lemma potentialMatchesFrom_sorted (bankT : Transaction) (budget : list Transaction)
    (off : nat) :
  StronglySorted lt (potentialMatchesFrom bankT budget off).
Proof.
  revert off. induction budget as [| budgetT rest IH]; intros off; simpl.
  - constructor.
  - case_bool_decide; [destruct (Matching budgetT) |]; try apply IH.
    constructor; [apply IH |].
    apply Forall_forall. intros k Hk.
    apply potentialMatchesFrom_elem in Hk. lia.
Qed.

(** ** The choice of the closest candidate *)

Lemma selectClosest_spec (bankT : Transaction) (budget : list Transaction)
    (pms : list nat) (c : option nat) (cd : Q) (c' : option nat) (cd' : Q) :
  selectClosest bankT budget pms c cd = (c', cd') ->
  (c' = c /\ cd' = cd
   /\ forall k cK, k ∈ pms -> budget !! k = Some cK ->
                   (0 <= hoursBefore bankT cK)%Q -> (cd <= hoursBefore bankT cK)%Q)
  \/ (exists l1 j l2 cJ,
         pms = l1 ++ j :: l2 /\ c' = Some j /\ budget !! j = Some cJ
         /\ cd' = hoursBefore bankT cJ
         /\ (0 <= hoursBefore bankT cJ)%Q /\ (hoursBefore bankT cJ < cd)%Q
         /\ (forall k cK, k ∈ l1 -> budget !! k = Some cK ->
                          (0 <= hoursBefore bankT cK)%Q ->
                          (hoursBefore bankT cJ < hoursBefore bankT cK)%Q)
         /\ (forall k cK, k ∈ l2 -> budget !! k = Some cK ->
                          (0 <= hoursBefore bankT cK)%Q ->
                          (hoursBefore bankT cJ <= hoursBefore bankT cK)%Q)).
Proof.
  revert c cd. induction pms as [| pm rest IH]; intros c cd Hsel; simpl in Hsel.
  - left. inversion Hsel; subst. split; [reflexivity |]. split; [reflexivity |].
    intros k cK Hk. inversion Hk.
  - destruct (budget !! pm) as [pmT |] eqn:Hpm.
    + fold (hoursBefore bankT pmT) in Hsel.
      destruct (Qle_bool 0 (hoursBefore bankT pmT) && Qltb (hoursBefore bankT pmT) cd)
        eqn:Hcond.
      * apply andb_true_iff in Hcond as [Hge Hlt].
        apply Qle_bool_iff in Hge. apply Qltb_lt in Hlt.
        apply IH in Hsel as [(-> & -> & Hall) | (l1 & j & l2 & cJ & -> & -> & Hj & -> & H0 & Hc & H1 & H2)].
        -- right. exists [], pm, rest, pmT. simpl. repeat split; auto.
           intros k cK Hk. inversion Hk.
        -- right. exists (pm :: l1), j, l2, cJ. simpl. repeat split; auto.
           ++ eapply Qlt_trans; eassumption.
           ++ intros k cK Hk HcK HcK0. apply elem_of_cons in Hk as [-> | Hk]; [| eauto].
              rewrite Hpm in HcK. inversion HcK; subst. exact Hc.
      * assert (Hnot : (0 <= hoursBefore bankT pmT)%Q -> (cd <= hoursBefore bankT pmT)%Q).
        { intros H0. apply andb_false_iff in Hcond as [Hcond | Hcond].
          - apply Qle_bool_iff in H0. congruence.
          - apply Qnot_lt_le. intros Hlt. apply Qltb_lt in Hlt. congruence. }
        apply IH in Hsel as [(-> & -> & Hall) | (l1 & j & l2 & cJ & -> & -> & Hj & -> & H0 & Hc & H1 & H2)].
        -- left. repeat split; auto.
           intros k cK Hk HcK HcK0. apply elem_of_cons in Hk as [-> | Hk]; [| eauto].
           rewrite Hpm in HcK. inversion HcK; subst. auto.
        -- right. exists (pm :: l1), j, l2, cJ. simpl. repeat split; auto.
           intros k cK Hk HcK HcK0. apply elem_of_cons in Hk as [-> | Hk]; [| eauto].
           rewrite Hpm in HcK. inversion HcK; subst.
           eapply Qlt_le_trans; [exact Hc | auto].
    + apply IH in Hsel as [(-> & -> & Hall) | (l1 & j & l2 & cJ & -> & -> & Hj & -> & H0 & Hc & H1 & H2)].
      * left. repeat split; auto.
        intros k cK Hk HcK. apply elem_of_cons in Hk as [-> | Hk]; [congruence | eauto].
      * right. exists (pm :: l1), j, l2, cJ. simpl. repeat split; auto.
        intros k cK Hk HcK. apply elem_of_cons in Hk as [-> | Hk]; [congruence | eauto].
Qed.

Lemma Hours_nonneg_Q (d : Duration) : (0 <= Duration_Hours d)%Q <-> 0 <= d.
Proof. rewrite <- Qle_bool_iff. apply Hours_nonneg. Qed.

Lemma selected_Some (bankT : Transaction) (budget : list Transaction) (j : nat) :
  selected bankT budget = Some j ->
  exists cJ, budget !! j = Some cJ /\ eligible bankT cJ
             /\ Timestamp bankT - Timestamp cJ <= 4166
             /\ forall k cK, budget !! k = Some cK -> eligible bankT cK ->
                             Timestamp cK <= Timestamp cJ
                             /\ (Timestamp cK = Timestamp cJ -> (j <= k)%nat).
Proof.
  unfold selected.
  destruct (selectClosest _ _ _ _ _) as [c' cd'] eqn:Hsel. simpl. intros ->.
  pose proof (potentialMatchesFrom_sorted bankT budget 0) as Hsorted.
  apply selectClosest_spec in Hsel
    as [(? & _) | (l1 & j' & l2 & cJ & Hpms & Hj' & Hj & _ & H0 & Hc & H1 & H2)];
    [discriminate |].
  inversion Hj'; subst j'; clear Hj'.
  unfold hoursBefore in *.
  apply (proj1 (Hours_nonneg_Q _)) in H0. apply (proj1 (Hours_lt_cap _)) in Hc.
  assert (Hin : j ∈ potentialMatchesFrom bankT budget 0).
  { rewrite Hpms. apply elem_of_app. right. apply elem_of_cons. auto. }
  apply potentialMatchesFrom_elem in Hin as (_ & cJ' & HJ' & HA & HM).
  rewrite Nat.sub_0_r, Hj in HJ'. inversion HJ'; subst cJ'; clear HJ'.
  pose proof (proj1 (Time_Sub_cap_days _ _) (conj H0 Hc)) as Hdays.
  exists cJ. split; [exact Hj |]. split; [unfold eligible; repeat split; auto; lia |].
  split; [lia |].
  intros k cK HK (HAK & HMK & HTK).
  assert (Hk : k ∈ potentialMatchesFrom bankT budget 0).
  { apply potentialMatchesFrom_elem. split; [lia |]. exists cK.
    rewrite Nat.sub_0_r. auto. }
  assert (HK0 : (0 <= Duration_Hours (Time_Sub (Timestamp bankT) (Timestamp cK)))%Q).
  { apply (proj2 (Hours_nonneg_Q _)), Time_Sub_nonneg. exact HTK. }
  rewrite Hpms in Hk, Hsorted.
  apply elem_of_app in Hk as [Hk | Hk]; [| apply elem_of_cons in Hk as [-> | Hk]].
  - specialize (H1 k cK Hk HK HK0). apply (proj1 (Hours_lt _ _)) in H1.
    apply Time_Sub_lt_days in H1; [| auto]. split; [lia | intros; lia].
  - rewrite Hj in HK. inversion HK; subst. split; [lia | intros; lia].
  - specialize (H2 k cK Hk HK HK0). apply (proj1 (Hours_le _ _)) in H2.
    apply Time_Sub_le_days in H2; [| auto]. split; [exact H2 |].
    intros _. apply StronglySorted_app_1_r, StronglySorted_cons in Hsorted as [Hall _].
    rewrite Forall_forall in Hall. specialize (Hall k Hk). lia.
Qed.

Lemma selected_None (bankT : Transaction) (budget : list Transaction) :
  selected bankT budget = None ->
  forall k cK, budget !! k = Some cK -> eligible bankT cK ->
               4166 < Timestamp bankT - Timestamp cK.
Proof.
  unfold selected.
  destruct (selectClosest _ _ _ _ _) as [c' cd'] eqn:Hsel. simpl. intros ->.
  apply selectClosest_spec in Hsel
    as [(_ & _ & Hall) | (l1 & j' & l2 & cJ & _ & Hj' & _)]; [| discriminate].
  intros k cK HK (HAK & HMK & HTK).
  assert (Hk : k ∈ potentialMatchesFrom bankT budget 0).
  { apply potentialMatchesFrom_elem. split; [lia |]. exists cK.
    rewrite Nat.sub_0_r. auto. }
  assert (HK0 : 0 <= Time_Sub (Timestamp bankT) (Timestamp cK)).
  { apply Time_Sub_nonneg. exact HTK. }
  specialize (Hall k cK Hk HK (proj2 (Hours_nonneg_Q _) HK0)).
  unfold hoursBefore in Hall. apply (proj1 (Hours_cap_le _)) in Hall.
  pose proof (Time_Sub_cap_days (Timestamp bankT) (Timestamp cK)) as Hcap.
  unfold Time in *. lia.
Qed.

(** ** One turn of the reconciliation loop *)

Section Reconciliation.
Context {lib : GoLib}.
Variable dateMatchRangeDays : Z.
Variable filters : list Filter.

Local Abbreviation step := (matchBankIndex dateMatchRangeDays filters).
Local Abbreviation loop := (compareLoop dateMatchRangeDays filters).

Lemma step_out_of_range (bankIndex : nat) (st : State) :
  bankTransactions st !! bankIndex = None -> step bankIndex st = st.
Proof. intros H. unfold matchBankIndex. rewrite H. reflexivity. Qed.

(** The three ways a turn ends: the entry is filtered, it is linked with
    the selected candidate, or it is left as it was. *)
Lemma step_cases (bankIndex : nat) (st : State) (bankT : Transaction) :
  bankTransactions st !! bankIndex = Some bankT ->
  (isFiltered bankT filters = true /\ step bankIndex st = st)
  \/ (isFiltered bankT filters = false
      /\ exists c closestT,
          selected bankT (budgetTransactions st) = Some c
          /\ budgetTransactions st !! c = Some closestT
          /\ inDateRange dateMatchRangeDays bankT closestT = true
          /\ step bankIndex st = link st bankIndex bankT c closestT)
  \/ (isFiltered bankT filters = false
      /\ (forall c closestT,
             selected bankT (budgetTransactions st) = Some c ->
             budgetTransactions st !! c = Some closestT ->
             inDateRange dateMatchRangeDays bankT closestT = false)
      /\ bankTransactions (step bankIndex st) = bankTransactions st
      /\ budgetTransactions (step bankIndex st) = budgetTransactions st
      /\ missingTransactions (step bankIndex st)
         = match Matching bankT with
           | Some _ => missingTransactions st
           | None => missingTransactions st ++ [bankT]
           end).
Proof.
  intros Hbank. unfold matchBankIndex. rewrite Hbank.
  destruct (isFiltered bankT filters) eqn:Hf; [left; auto | right].
  assert (Hsel : forall d,
             selectClosest bankT (budgetTransactions st)
               (potentialMatchesFrom bankT (budgetTransactions st) 0) None (99999 # 1)
             = (selected bankT (budgetTransactions st), d) -> True) by auto.
  assert (Hkeep :
    match bankTransactions st !! bankIndex with
    | Some bankT' =>
        match Matching bankT' with
        | Some _ => st
        | None => {| bankTransactions := bankTransactions st;
                     budgetTransactions := budgetTransactions st;
                     missingTransactions := missingTransactions st ++ [bankT'] |}
        end
    | None => st
    end = match Matching bankT with
          | Some _ => st
          | None => {| bankTransactions := bankTransactions st;
                       budgetTransactions := budgetTransactions st;
                       missingTransactions := missingTransactions st ++ [bankT] |}
          end) by (rewrite Hbank; reflexivity).
  assert (Hunchanged : forall st',
    st' = match Matching bankT with
          | Some _ => st
          | None => {| bankTransactions := bankTransactions st;
                       budgetTransactions := budgetTransactions st;
                       missingTransactions := missingTransactions st ++ [bankT] |}
          end ->
    bankTransactions st' = bankTransactions st
    /\ budgetTransactions st' = budgetTransactions st
    /\ missingTransactions st'
       = match Matching bankT with
         | Some _ => missingTransactions st
         | None => missingTransactions st ++ [bankT]
         end).
  { intros st' ->. destruct (Matching bankT); auto. }
  case_bool_decide as Hlen.
  - unfold selected.
    destruct (selectClosest _ _ _ _ _) as [closest cd] eqn:Hsc. simpl.
    destruct closest as [c |].
    + destruct (budgetTransactions st !! c) as [closestT |] eqn:Hc.
      * destruct (inDateRange dateMatchRangeDays bankT closestT) eqn:Hr.
        -- left. split; [reflexivity |]. exists c, closestT.
           repeat split; auto.
           unfold link at 1 2. simpl.
           rewrite list_lookup_insert_eq by (eapply lookup_lt_Some; eauto).
           reflexivity.
        -- right. split; [reflexivity |]. split.
           ++ intros c' closestT' Hc' HcT'. inversion Hc'; subst c'.
              rewrite Hc in HcT'. inversion HcT'; subst. exact Hr.
           ++ apply Hunchanged. exact Hkeep.
      * right. split; [reflexivity |]. split.
        -- intros c' closestT' Hc' HcT'. inversion Hc'; subst c'. congruence.
        -- apply Hunchanged. exact Hkeep.
    + right. split; [reflexivity |]. split.
      * intros c' closestT' Hc'. discriminate.
      * apply Hunchanged. exact Hkeep.
  - right. split; [reflexivity |]. split.
    + unfold selected.
      destruct (potentialMatchesFrom bankT (budgetTransactions st) 0); simpl in *;
        [intros; discriminate | lia].
    + apply Hunchanged. exact Hkeep.
Qed.

Lemma loop_S (n : nat) (st : State) : loop (S n) st = step n (loop n st).
Proof.
  unfold compareLoop. rewrite seq_S, fold_left_app. reflexivity.
Qed.

Lemma setMatching_None_id (t : Transaction) :
  Matching t = None -> setMatching t None = t.
Proof. destruct t; simpl; intros ->; reflexivity. Qed.

Lemma isFiltered_setMatching (t : Transaction) (p : option ref) (fs : list Filter) :
  isFiltered (setMatching t p) fs = isFiltered t fs.
Proof. induction fs as [| f rest IH]; simpl; [reflexivity | rewrite IH; reflexivity]. Qed.

(** *** The links during a run

    [bank0] and [budget0] are the slices as the parser hands them over: no
    entry is matched yet. *)
Section Run.
Variables bank0 budget0 : list Transaction.
Hypothesis bank0_unmatched : Forall (fun t => Matching t = None) bank0.
Hypothesis budget0_unmatched : Forall (fun t => Matching t = None) budget0.

Local Abbreviation Inv := (Inv dateMatchRangeDays bank0 budget0).
Local Abbreviation bestMatch := (bestMatch dateMatchRangeDays).

Lemma Inv_init : Inv 0 bank0 budget0.
Proof.
  rewrite Forall_forall in bank0_unmatched, budget0_unmatched.
  split; try reflexivity.
  - intros i t H. rewrite setMatching_None_id; [exact H |].
    apply bank0_unmatched. eapply list_elem_of_lookup_2; eauto.
  - intros j t H. rewrite setMatching_None_id; [exact H |].
    apply budget0_unmatched. eapply list_elem_of_lookup_2; eauto.
  - intros i t _ H. apply bank0_unmatched. eapply list_elem_of_lookup_2; eauto.
  - intros i t p H HM. rewrite (bank0_unmatched t) in HM; [discriminate |].
    eapply list_elem_of_lookup_2; eauto.
  - intros j t p H HM. rewrite (budget0_unmatched t) in HM; [discriminate |].
    eapply list_elem_of_lookup_2; eauto.
Qed.

Lemma Inv_weaken (n : nat) (bank budget : list Transaction) :
  Inv n bank budget -> Inv (S n) bank budget.
Proof.
  intros [H1 H2 H3 H4 H5 H6 H7]. split; auto.
  - intros i t Hi. apply H5. lia.
  - intros j cT p Hj HM. destruct (H7 j cT p Hj HM) as (i & t & ? & ? & ?).
    exists i, t. repeat split; try tauto. lia.
Qed.

Lemma Inv_link (n : nat) (bank budget : list Transaction)
    (bankT : Transaction) (c : nat) (closestT : Transaction) :
  Inv n bank budget ->
  bank !! n = Some bankT ->
  selected bankT budget = Some c ->
  budget !! c = Some closestT ->
  inDateRange dateMatchRangeDays bankT closestT = true ->
  Inv (S n)
    (<[n := setMatching bankT (Some (BudgetRef c))]> bank)
    (<[c := setMatching closestT (Some (BankRef n))]> budget).
Proof.
  intros [H1 H2 H3 H4 H5 H6 H7] Hn Hsel Hc Hrange.
  apply selected_Some in Hsel as (cJ & HcJ & (HA & HM & HT) & _ & Hbest).
  rewrite Hc in HcJ. inversion HcJ; subst cJ; clear HcJ.
  apply inDateRange_iff in Hrange.
  pose proof (lookup_lt_Some _ _ _ Hn) as Hnlt.
  pose proof (lookup_lt_Some _ _ _ Hc) as Hclt.
  pose proof (H5 n bankT (Nat.le_refl n) Hn) as HMn.
  split.
  - intros i t Hi. apply list_lookup_insert_Some in Hi as [(<- & <- & _) | (Hne & Hi)].
    + apply H1 in Hn. exact Hn.
    + auto.
  - intros j t Hj. apply list_lookup_insert_Some in Hj as [(<- & <- & _) | (Hne & Hj)].
    + apply H2 in Hc. exact Hc.
    + auto.
  - rewrite length_insert. exact H3.
  - rewrite length_insert. exact H4.
  - intros i t Hle Hi. apply list_lookup_insert_Some in Hi as [(<- & _) | (Hne & Hi)]; [lia |].
    apply (H5 i t); [lia | exact Hi].
  - intros i t p Hi HMt.
    apply list_lookup_insert_Some in Hi as [(<- & <- & _) | (Hne & Hi)].
    + simpl in HMt. inversion HMt; subst p; clear HMt.
      exists c, (setMatching closestT (Some (BankRef n))).
      split; [reflexivity |]. split; [apply list_lookup_insert_eq; exact Hclt |].
      split; [reflexivity |].
      unfold bestMatch. simpl.
      split; [exact HA |]. split; [exact HT |]. split; [exact Hrange |].
      intros k cK Hk' HAK HTK Hprem.
      apply list_lookup_insert_Some in Hk' as [(<- & <- & _) | (Hne & Hk)];
        [simpl; split; [lia | intros; lia] |].
      destruct (Matching cK) as [p' |] eqn:HMK.
      * destruct (H7 k cK p' Hk HMK) as (i' & t' & -> & Hlt & _).
        specialize (Hprem i' eq_refl). lia.
      * apply (Hbest k cK Hk). unfold eligible. auto.
    + destruct (H6 i t p Hi HMt) as (j & cT & -> & Hj & HMc & HAj & HTj & HRj & Hbj).
      assert (Hjc : c <> j) by (intros <-; congruence).
      exists j, cT. split; [reflexivity |].
      split; [rewrite list_lookup_insert_ne by exact Hjc; exact Hj |].
      split; [exact HMc |].
      unfold bestMatch.
      split; [exact HAj |]. split; [exact HTj |]. split; [exact HRj |].
      intros k cK Hk' HAK HTK Hprem.
      apply list_lookup_insert_Some in Hk' as [(<- & <- & _) | (Hne' & Hk)].
      * simpl in *. apply (Hbj c closestT Hc); auto. intros i'. congruence.
      * apply (Hbj k cK Hk); auto.
  - intros j cT p Hj HMc.
    apply list_lookup_insert_Some in Hj as [(<- & <- & _) | (Hne & Hj)].
    + simpl in HMc. inversion HMc; subst p; clear HMc.
      exists n, (setMatching bankT (Some (BudgetRef c))).
      split; [reflexivity |]. split; [lia |].
      split; [apply list_lookup_insert_eq; exact Hnlt | reflexivity].
    + destruct (H7 j cT p Hj HMc) as (i & t & -> & Hlt & Hi & HMt).
      exists i, t. split; [reflexivity |]. split; [lia |].
      split; [rewrite list_lookup_insert_ne by lia; exact Hi | exact HMt].
Qed.

Lemma Inv_step (n : nat) (st : State) :
  Inv n (bankTransactions st) (budgetTransactions st) ->
  Inv (S n) (bankTransactions (step n st)) (budgetTransactions (step n st)).
Proof.
  intros HI.
  destruct (bankTransactions st !! n) as [bankT |] eqn:Hn.
  - destruct (step_cases n st bankT Hn)
      as [(_ & ->) | [(_ & c & closestT & Hsel & Hc & Hr & ->) | (_ & _ & -> & -> & _)]].
    + apply Inv_weaken, HI.
    + simpl. apply Inv_link; auto.
    + apply Inv_weaken, HI.
  - rewrite step_out_of_range by exact Hn. apply Inv_weaken, HI.
Qed.

Lemma step_keeps_bank (n : nat) (st : State) (i : nat) (t : Transaction) :
  Inv n (bankTransactions st) (budgetTransactions st) ->
  bankTransactions st !! i = Some t -> Matching t <> None ->
  bankTransactions (step n st) !! i = Some t.
Proof.
  intros HI Hi HM.
  destruct (bankTransactions st !! n) as [bankT |] eqn:Hn.
  - destruct (step_cases n st bankT Hn)
      as [(_ & ->) | [(_ & c & closestT & Hsel & Hc & Hr & ->) | (_ & _ & -> & _)]]; auto.
    simpl. rewrite list_lookup_insert_ne; [exact Hi |].
    intros <-. rewrite Hn in Hi. inversion Hi; subst.
    apply HM. eapply inv_bank_rest; eauto.
  - rewrite step_out_of_range by exact Hn. exact Hi.
Qed.

Lemma step_keeps_budget (n : nat) (st : State) (j : nat) (cT : Transaction) :
  budgetTransactions st !! j = Some cT -> Matching cT <> None ->
  budgetTransactions (step n st) !! j = Some cT.
Proof.
  intros Hj HM.
  destruct (bankTransactions st !! n) as [bankT |] eqn:Hn.
  - destruct (step_cases n st bankT Hn)
      as [(_ & ->) | [(_ & c & closestT & Hsel & Hc & Hr & ->) | (_ & _ & _ & -> & _)]]; auto.
    simpl. rewrite list_lookup_insert_ne; [exact Hj |].
    intros <-. rewrite Hc in Hj. inversion Hj; subst.
    apply selected_Some in Hsel as (cJ & HcJ & (_ & HMJ & _) & _).
    congruence.
  - rewrite step_out_of_range by exact Hn. exact Hj.
Qed.

Local Abbreviation st0 :=
  {| bankTransactions := bank0; budgetTransactions := budget0; missingTransactions := [] |}.

Lemma Inv_loop (n : nat) :
  Inv n (bankTransactions (loop n st0)) (budgetTransactions (loop n st0)).
Proof.
  induction n as [| n IH].
  - apply Inv_init.
  - rewrite loop_S. apply Inv_step, IH.
Qed.

Lemma loop_keeps_bank (n m i : nat) (t : Transaction) :
  (n <= m)%nat ->
  bankTransactions (loop n st0) !! i = Some t -> Matching t <> None ->
  bankTransactions (loop m st0) !! i = Some t.
Proof.
  intros Hle Hi HM. induction Hle as [| m Hle IH]; [exact Hi |].
  rewrite loop_S. apply step_keeps_bank; auto. apply Inv_loop.
Qed.

Lemma loop_keeps_budget (n m j : nat) (cT : Transaction) :
  (n <= m)%nat ->
  budgetTransactions (loop n st0) !! j = Some cT -> Matching cT <> None ->
  budgetTransactions (loop m st0) !! j = Some cT.
Proof.
  intros Hle Hj HM. induction Hle as [| m Hle IH]; [exact Hj |].
  rewrite loop_S. apply step_keeps_budget; auto.
Qed.

End Run.

(** *** What a turn leaves alone *)

Lemma step_bank_other (n i : nat) (st : State) :
  n <> i -> bankTransactions (step n st) !! i = bankTransactions st !! i.
Proof.
  intros Hne.
  destruct (bankTransactions st !! n) as [bankT |] eqn:Hn.
  - destruct (step_cases n st bankT Hn)
      as [(_ & ->) | [(_ & c & closestT & Hsel & Hc & Hr & ->) | (_ & _ & -> & _)]]; auto.
    simpl. apply list_lookup_insert_ne. exact Hne.
  - rewrite step_out_of_range by exact Hn. reflexivity.
Qed.

Lemma step_bank_length (n : nat) (st : State) :
  length (bankTransactions (step n st)) = length (bankTransactions st).
Proof.
  destruct (bankTransactions st !! n) as [bankT |] eqn:Hn.
  - destruct (step_cases n st bankT Hn)
      as [(_ & ->) | [(_ & c & closestT & Hsel & Hc & Hr & ->) | (_ & _ & -> & _)]]; auto.
    simpl. apply length_insert.
  - rewrite step_out_of_range by exact Hn. reflexivity.
Qed.

Lemma step_bank_take (n : nat) (st : State) :
  take n (bankTransactions (step n st)) = take n (bankTransactions st).
Proof.
  destruct (bankTransactions st !! n) as [bankT |] eqn:Hn.
  - destruct (step_cases n st bankT Hn)
      as [(_ & ->) | [(_ & c & closestT & Hsel & Hc & Hr & ->) | (_ & _ & -> & _)]]; auto.
    simpl. apply take_insert_ge. lia.
  - rewrite step_out_of_range by exact Hn. reflexivity.
Qed.

(** The fields that the parser fills are never written. *)
Lemma step_bank_data (n : nat) (st : State) :
  (fun t => setMatching t None) <$> bankTransactions (step n st)
  = (fun t => setMatching t None) <$> bankTransactions st.
Proof.
  destruct (bankTransactions st !! n) as [bankT |] eqn:Hn.
  - destruct (step_cases n st bankT Hn)
      as [(_ & ->) | [(_ & c & closestT & Hsel & Hc & Hr & ->) | (_ & _ & -> & _)]]; auto.
    simpl. rewrite list_fmap_insert. apply list_insert_id.
    rewrite list_lookup_fmap, Hn. reflexivity.
  - rewrite step_out_of_range by exact Hn. reflexivity.
Qed.

Lemma step_budget_data (n : nat) (st : State) :
  (fun t => setMatching t None) <$> budgetTransactions (step n st)
  = (fun t => setMatching t None) <$> budgetTransactions st.
Proof.
  destruct (bankTransactions st !! n) as [bankT |] eqn:Hn.
  - destruct (step_cases n st bankT Hn)
      as [(_ & ->) | [(_ & c & closestT & Hsel & Hc & Hr & ->) | (_ & _ & _ & -> & _)]]; auto.
    simpl. rewrite list_fmap_insert. apply list_insert_id.
    rewrite list_lookup_fmap, Hc. reflexivity.
  - rewrite step_out_of_range by exact Hn. reflexivity.
Qed.

Lemma loop_bank_data (n : nat) (st : State) :
  (fun t => setMatching t None) <$> bankTransactions (loop n st)
  = (fun t => setMatching t None) <$> bankTransactions st.
Proof.
  induction n as [| n IH]; [reflexivity |].
  rewrite loop_S, step_bank_data. exact IH.
Qed.

Lemma loop_budget_data (n : nat) (st : State) :
  (fun t => setMatching t None) <$> budgetTransactions (loop n st)
  = (fun t => setMatching t None) <$> budgetTransactions st.
Proof.
  induction n as [| n IH]; [reflexivity |].
  rewrite loop_S, step_budget_data. exact IH.
Qed.

(** Turn [i] is the only one that writes bank entry [i]. *)
Lemma loop_bank_before (n i : nat) (st : State) :
  (n <= i)%nat -> bankTransactions (loop n st) !! i = bankTransactions st !! i.
Proof.
  induction n as [| n IH]; intros Hle; [reflexivity |].
  rewrite loop_S, step_bank_other by lia. apply IH. lia.
Qed.

Lemma loop_bank_after (n i : nat) (st : State) :
  (i < n)%nat ->
  bankTransactions (loop n st) !! i = bankTransactions (loop (S i) st) !! i.
Proof.
  intros Hlt. induction Hlt as [| n Hlt IH]; [reflexivity |].
  rewrite loop_S, step_bank_other by lia. exact IH.
Qed.

Lemma loop_bank_filtered (n i : nat) (st : State) (t : Transaction) :
  bankTransactions st !! i = Some t -> isFiltered t filters = true ->
  bankTransactions (loop n st) !! i = Some t.
Proof.
  intros Hi Hf.
  destruct (Nat.le_gt_cases n i) as [Hle | Hlt].
  - rewrite loop_bank_before by exact Hle. exact Hi.
  - rewrite loop_bank_after by exact Hlt. rewrite loop_S.
    pose proof (loop_bank_before i i st (Nat.le_refl i)) as Hb. rewrite Hi in Hb.
    destruct (step_cases i (loop i st) t Hb)
      as [(_ & ->) | [(Hf' & _) | (Hf' & _)]]; [exact Hb | congruence | congruence].
Qed.

(** *** The result list *)

Lemma loop_missing (n : nat) (st : State) :
  missingTransactions (loop n st)
  = missingTransactions st
    ++ List.filter (isMissing filters) (take n (bankTransactions (loop n st))).
Proof.
  induction n as [| n IH]; [simpl; rewrite app_nil_r; reflexivity |].
  rewrite loop_S. set (s := loop n st) in *.
  destruct (bankTransactions s !! n) as [bankT |] eqn:Hn.
  - assert (Htake : forall x,
               bankTransactions (step n s) !! n = Some x ->
               List.filter (isMissing filters) (take (S n) (bankTransactions (step n s)))
               = List.filter (isMissing filters) (take n (bankTransactions s))
                 ++ List.filter (isMissing filters) [x]).
    { intros x Hx. rewrite (take_S_r _ _ _ Hx), List.filter_app, step_bank_take.
      reflexivity. }
    destruct (step_cases n s bankT Hn)
      as [(Hf & Hs) | [(Hf & c & closestT & Hsel & Hc & Hr & Hs) | (Hf & _ & Hb & _ & Hm)]].
    + rewrite (Htake bankT) by (rewrite Hs; exact Hn).
      assert (Hx : isMissing filters bankT = false)
        by (unfold isMissing; rewrite Hf; reflexivity).
      rewrite Hs, IH. simpl. rewrite Hx, app_nil_r. reflexivity.
    + rewrite (Htake (setMatching bankT (Some (BudgetRef c)))).
      * assert (Hx : isMissing filters (setMatching bankT (Some (BudgetRef c))) = false)
          by (unfold isMissing; simpl; apply andb_false_r).
        rewrite Hs. simpl. rewrite IH, Hx, app_nil_r. reflexivity.
      * rewrite Hs. simpl. apply list_lookup_insert_eq. eapply lookup_lt_Some; eauto.
    + rewrite (Htake bankT) by (rewrite Hb; exact Hn).
      assert (Hx : isMissing filters bankT
                   = match Matching bankT with Some _ => false | None => true end)
        by (unfold isMissing; rewrite Hf; reflexivity).
      rewrite Hm, IH. simpl. rewrite Hx.
      destruct (Matching bankT); [rewrite app_nil_r; reflexivity |].
      rewrite <- app_assoc. reflexivity.
  - rewrite step_out_of_range by exact Hn. rewrite IH. f_equal. f_equal.
    apply lookup_ge_None in Hn. rewrite !take_ge by lia. reflexivity.
Qed.

End Reconciliation.

Lemma State_eq (st : State) (bank budget missing : list Transaction) :
  bankTransactions st = bank ->
  budgetTransactions st = budget ->
  missingTransactions st = missing ->
  st = {| bankTransactions := bank;
          budgetTransactions := budget;
          missingTransactions := missing |}.
Proof. destruct st; simpl; intros; subst; reflexivity. Qed.

(** ** The record parser *)

Section Parser.
Context {lib : GoLib}.

Lemma parseRecords_no_error (records : list (list string)) (ti di ai xi : Z)
    (transactions : list Transaction) (e : error) :
  parseRecords records ti di ai xi transactions <> Err e.
Proof.
  revert transactions. induction records as [| record rest IH]; intros transactions; simpl.
  - discriminate.
  - destruct (parseTransaction record ti di ai xi); [apply IH | apply IH | discriminate].
Qed.

Lemma isHeaderRecord_shape (record : list string) :
  isHeaderRecord record = true
  <-> exists field3 rest,
      record = "Date"%string :: "Description"%string :: "Amount"%string :: field3 :: rest.
Proof.
  unfold isHeaderRecord. split.
  - intros H.
    apply andb_prop in H as [H H2]. apply andb_prop in H as [H H1].
    apply andb_prop in H as [Hlen H0].
    apply bool_decide_eq_true in H0, H1, H2. apply Z.ltb_lt in Hlen.
    destruct record as [| a [| b [| c [| d rest]]]]; simpl in Hlen; try lia.
    unfold index in *. simpl in *.
    inversion H0; inversion H1; inversion H2; subst. eauto.
  - intros (field3 & rest & ->).
    repeat (apply andb_true_intro; split);
      try (apply bool_decide_eq_true; reflexivity).
    apply Z.ltb_lt. simpl length. lia.
Qed.

(** The scan takes the last header record. *)
Lemma findStart_cases (bankRecords : list (list string)) (i start : Z) :
  (Forall (fun r => isHeaderRecord r = false) bankRecords
   /\ findStart bankRecords i start = start)
  \/ (exists (k : nat) (h : list string),
         bankRecords !! k = Some h /\ isHeaderRecord h = true
         /\ (forall k' r, (k < k')%nat -> bankRecords !! k' = Some r ->
                           isHeaderRecord r = false)
         /\ findStart bankRecords i start = i + Z.of_nat k + 2).
Proof.
  revert i start. induction bankRecords as [| record rest IH]; intros i start; simpl.
  - left. split; [constructor | reflexivity].
  - destruct (isHeaderRecord record) eqn:Hh.
    + destruct (IH (i + 1) (i + 2)) as [(Hall & ->) | (k & h & Hk & Hhk & Hlast & ->)].
      * right. exists 0%nat, record. repeat split; auto; [| lia].
        intros [| k'] r Hlt Hr; [lia |]. simpl in Hr.
        rewrite Forall_forall in Hall. apply Hall. eapply list_elem_of_lookup_2; eauto.
      * right. exists (S k), h. repeat split; auto; [| lia].
        intros [| k'] r Hlt Hr; [lia |]. simpl in Hr. apply (Hlast k' r); [lia | exact Hr].
    + destruct (IH (i + 1) start) as [(Hall & ->) | (k & h & Hk & Hhk & Hlast & ->)].
      * left. split; [constructor; assumption | reflexivity].
      * right. exists (S k), h. repeat split; auto; [| lia].
        intros [| k'] r Hlt Hr; [lia |]. simpl in Hr. apply (Hlast k' r); [lia | exact Hr].
Qed.

(** A record too short for the amount column, with a date that parses. *)
Lemma parseTransaction_short (record : list string) (ts : string) (t : Time)
    (descriptionIndex amountIndex detailsIndex : Z) :
  index record 0 = Some ts ->
  time_Parse "01/02/2006" ts = Some t ->
  index record amountIndex = None ->
  parseTransaction record 0 descriptionIndex amountIndex detailsIndex = Panic.
Proof.
  intros H0 Ht Ha. unfold parseTransaction. rewrite H0, Ht, Ha. reflexivity.
Qed.

Lemma parseTransaction_unmatched (record : list string) (ti di ai xi : Z)
    (t : Transaction) :
  parseTransaction record ti di ai xi = Ok t -> Matching t = None.
Proof.
  unfold parseTransaction. intros H.
  repeat match type of H with
         | match ?x with _ => _ end = _ => destruct x; try discriminate
         end.
  inversion H. reflexivity.
Qed.

End Parser.

Lemma parseRecords_unmatched {lib : GoLib} (records : list (list string))
    (ti di ai xi : Z) (acc transactions : list Transaction) :
  Forall (fun t => Matching t = None) acc ->
  parseRecords records ti di ai xi acc = Ok transactions ->
  Forall (fun t => Matching t = None) transactions.
Proof.
  revert acc. induction records as [| record rest IH]; intros acc Hacc; simpl.
  - intros H. inversion H; subst. exact Hacc.
  - destruct (parseTransaction record ti di ai xi) as [t | e |] eqn:Hp;
      [| apply IH; exact Hacc | discriminate].
    apply IH. apply Forall_app. split; [exact Hacc |].
    constructor; [| constructor]. eapply parseTransaction_unmatched; eauto.
Qed.

(** ** The filter engine *)

Section Filters.
Context {lib : GoLib}.

Lemma isFiltered_cons (t : Transaction) (f : Filter) (rest : list Filter) :
  isFiltered t (f :: rest) = ruleMatches t f || isFiltered t rest.
Proof.
  simpl. unfold ruleMatches.
  destruct (regexp_MatchString (FilterRegex f) (Description t)) as [matched e]. simpl.
  destruct (matched && (MinAmount f <=? Amount t) && (Amount t <=? MaxAmount f));
    reflexivity.
Qed.

Lemma isFiltered_app (t : Transaction) (fs1 fs2 : list Filter) :
  isFiltered t (fs1 ++ fs2) = isFiltered t fs1 || isFiltered t fs2.
Proof.
  induction fs1 as [| f rest IH]; [reflexivity |].
  rewrite <- app_comm_cons, !isFiltered_cons, IH, orb_assoc. reflexivity.
Qed.

Lemma isFiltered_Permutation (t : Transaction) (fs fs' : list Filter) :
  fs ≡ₚ fs' -> isFiltered t fs = isFiltered t fs'.
Proof.
  induction 1 as [| f fs fs' _ IH | f g fs | fs fs' fs'' _ IH1 _ IH2].
  - reflexivity.
  - rewrite !isFiltered_cons, IH. reflexivity.
  - rewrite !isFiltered_cons, !orb_assoc, (orb_comm (ruleMatches t g)). reflexivity.
  - congruence.
Qed.

Lemma ruleMatches_iff (t : Transaction) (f : Filter) :
  ruleMatches t f = true
  <-> (exists re, regexp_Compile (FilterRegex f) = Some re
                  /\ Regexp_MatchString re (Description t) = true)
      /\ MinAmount f <= Amount t <= MaxAmount f.
Proof.
  unfold ruleMatches, regexp_MatchString.
  rewrite !andb_true_iff, !Z.leb_le.
  destruct (regexp_Compile (FilterRegex f)) as [re |]; simpl.
  - split.
    + intros [[Hm ?] ?]. split; [eauto | lia].
    + intros [(re' & Hre & Hm) ?]. inversion Hre; subst. repeat split; [exact Hm | lia | lia].
  - split.
    + intros [[? _] _]. discriminate.
    + intros [(re' & Hre & _) _]. discriminate.
Qed.

Lemma isFiltered_iff (t : Transaction) (fs : list Filter) :
  isFiltered t fs = true <-> exists f, f ∈ fs /\ ruleMatches t f = true.
Proof.
  induction fs as [| f rest IH].
  - simpl. split; [discriminate | intros (f & Hf & _); inversion Hf].
  - rewrite isFiltered_cons, orb_true_iff, IH. split.
    + intros [H | (g & Hg & H)]; [exists f | exists g]; split; auto;
        apply elem_of_cons; auto.
    + intros (g & Hg & H). apply elem_of_cons in Hg as [-> | Hg]; eauto.
Qed.

Lemma ruleMatches_invalid (t : Transaction) (f : Filter) :
  regexp_Compile (FilterRegex f) = None -> ruleMatches t f = false.
Proof.
  intros H. unfold ruleMatches, regexp_MatchString. rewrite H. reflexivity.
Qed.

End Filters.

(** ** From the parser to the engine *)

(** The parser leaves every entry unmatched, which is what the properties of
    the links assume of the two slices. *)
Lemma parseBankTransactions_unmatched {lib : GoLib} (bankRecords : list (list string))
    (transactions : list Transaction) :
  parseBankTransactions bankRecords = Ok transactions ->
  Forall (fun t => Matching t = None) transactions.
Proof.
  unfold parseBankTransactions.
  destruct (findStart bankRecords 0 (-1) <? 0); [discriminate |].
  apply parseRecords_unmatched. constructor.
Qed.

Lemma parseBudgetTransactions_unmatched {lib : GoLib} (budgetRecords : list (list string))
    (transactions : list Transaction) :
  parseBudgetTransactions budgetRecords = Ok transactions ->
  Forall (fun t => Matching t = None) transactions.
Proof. apply parseRecords_unmatched. constructor. Qed.

(** ** The scenarios of the specification, run on the code *)

Example dates_of_the_examples :
  Std.parseDate "01/02/2006" "01/10/2024" = Some 19732
  /\ Std.parseDate "01/02/2006" "01/03/2024" = Some 19725
  /\ Std.parseDate "01/02/2006" "01/01/1970" = Some 0
  /\ Std.parseDate "01/02/2006" "02/29/2023" = None
  /\ Std.parseDate "01/02/2006" "1/3/2024" = None.
Proof. repeat split; vm_compute; reflexivity. Qed.

(** Scenario A: a candidate two days before is matched. *)
Example scenario_A :
  compareTransactions (lib := Std.lib Examples.noFiles) dateMatchRangeDays
    [Examples.bankJan10] [Examples.budgetJan08] []
  = {| bankTransactions := [setMatching Examples.bankJan10 (Some (BudgetRef 0))];
       budgetTransactions := [setMatching Examples.budgetJan08 (Some (BankRef 0))];
       missingTransactions := [] |}.
Proof. vm_compute. reflexivity. Qed.

(** Scenario B: a candidate ten days away (here after the bank entry) is not
    matched. *)
Example scenario_B :
  compareTransactions (lib := Std.lib Examples.noFiles) dateMatchRangeDays
    [Examples.bankJan10] [Examples.entry 19742 "groceries" (-500)] []
  = {| bankTransactions := [Examples.bankJan10];
       budgetTransactions := [Examples.entry 19742 "groceries" (-500)];
       missingTransactions := [Examples.bankJan10] |}.
Proof. vm_compute. reflexivity. Qed.

(** Scenario C: a candidate two days after the bank entry is not matched. *)
Example scenario_C :
  compareTransactions (lib := Std.lib Examples.noFiles) dateMatchRangeDays
    [Examples.bankJan10] [Examples.entry 19734 "groceries" (-500)] []
  = {| bankTransactions := [Examples.bankJan10];
       budgetTransactions := [Examples.entry 19734 "groceries" (-500)];
       missingTransactions := [Examples.bankJan10] |}.
Proof. vm_compute. reflexivity. Qed.

(** Scenario D: of two candidates the closer one is taken, the first of two
    as close, and the other one is left for the next bank entry. *)
Example scenario_D :
  compareTransactions (lib := Std.lib Examples.noFiles) dateMatchRangeDays
    [Examples.bankJan10; Examples.bankJan11]
    [Examples.budgetJan05; Examples.budgetJan08; Examples.budgetJan08b] []
  = {| bankTransactions :=
         [setMatching Examples.bankJan10 (Some (BudgetRef 1));
          setMatching Examples.bankJan11 (Some (BudgetRef 2))];
       budgetTransactions :=
         [Examples.budgetJan05;
          setMatching Examples.budgetJan08 (Some (BankRef 0));
          setMatching Examples.budgetJan08b (Some (BankRef 1))];
       missingTransactions := [] |}.
Proof. vm_compute. reflexivity. Qed.

(** The filter scenario: a filtered bank entry is neither matched nor missing. *)
Example scenario_filter :
  compareTransactions (lib := Std.lib Examples.noFiles) dateMatchRangeDays
    [Examples.bankTransfer; Examples.bankJan10] [Examples.budgetJan08]
    [Examples.transferRule]
  = {| bankTransactions :=
         [Examples.bankTransfer; setMatching Examples.bankJan10 (Some (BudgetRef 0))];
       budgetTransactions := [setMatching Examples.budgetJan08 (Some (BankRef 1))];
       missingTransactions := [] |}.
Proof. vm_compute. reflexivity. Qed.

(** The initial [closestDuration] of 99999 hours: a candidate 4167 days
    before the bank entry is not selected, one 4166 days before is. *)
Example closestDuration_cap :
  selected Examples.bankJan10 [Examples.entry (19732 - 4167) "groceries" (-500)] = None
  /\ selected Examples.bankJan10 [Examples.entry (19732 - 4166) "groceries" (-500)]
     = Some 0%nat.
Proof. split; vm_compute; reflexivity. Qed.

(** * The claims of the specification *)

(** C1, as amended.  For a range [dateMatchRangeDays] on which the date
    arithmetic does not overflow ([rangeInBounds], which holds of the
    program's 7): in the turn of bank entry [i], the candidate selected for it
    is accepted, and the two links are set, exactly when its date is strictly
    less than [dateMatchRangeDays] days away from the date of the bank entry;
    at [dateMatchRangeDays] days or more nothing is written, and the bank
    entry is as it was in every state of the run. *)
Theorem range_acceptance_is_exclusive {lib : GoLib} (R : Z) (fs : list Filter)
    (st0 : State) (i : nat) (bankT : Transaction) (c : nat) (closestT : Transaction) :
  let st := compareLoop R fs i st0 in
  let st' := compareLoop R fs (S i) st0 in
  rangeInBounds R ->
  bankTransactions st !! i = Some bankT ->
  isFiltered bankT fs = false ->
  selected bankT (budgetTransactions st) = Some c ->
  budgetTransactions st !! c = Some closestT ->
  (Z.abs (Timestamp bankT - Timestamp closestT) < R ->
   bankTransactions st'
   = <[i := setMatching bankT (Some (BudgetRef c))]> (bankTransactions st)
   /\ budgetTransactions st'
      = <[c := setMatching closestT (Some (BankRef i))]> (budgetTransactions st)
   /\ missingTransactions st' = missingTransactions st)
  /\ (R <= Z.abs (Timestamp bankT - Timestamp closestT) ->
      budgetTransactions st' = budgetTransactions st
      /\ (forall n, bankTransactions (compareLoop R fs n st0) !! i = Some bankT)
      /\ missingTransactions st'
         = match Matching bankT with
           | Some _ => missingTransactions st
           | None => missingTransactions st ++ [bankT]
           end).
Proof.
  intros st st' _ Hi Hf Hsel Hc. subst st'. rewrite loop_S. fold st.
  destruct (step_cases R fs i st bankT Hi)
    as [(Hf' & _) | [(_ & c' & closestT' & Hsel' & Hc' & Hr & Hs)
                    | (_ & Hno & Hb & Hbu & Hm)]]; [congruence | |].
  - rewrite Hsel in Hsel'. inversion Hsel'; subst c'.
    rewrite Hc in Hc'. inversion Hc'; subst closestT'.
    apply inDateRange_iff in Hr. split; [| lia].
    intros _. rewrite Hs. simpl. auto.
  - specialize (Hno c closestT Hsel Hc).
    split.
    + intros Hin. apply inDateRange_iff in Hin. congruence.
    + intros _. split; [exact Hbu |]. split; [| exact Hm].
      intros n. destruct (Nat.le_gt_cases n i) as [Hle | Hlt].
      * rewrite loop_bank_before by exact Hle.
        rewrite <- (loop_bank_before R fs i i st0) by lia. exact Hi.
      * rewrite loop_bank_after by exact Hlt.
        rewrite loop_S. fold st. rewrite Hb. exact Hi.
Qed.

Lemma range_acceptance_is_exclusive_witness :
  let lib := Std.lib Examples.noFiles in
  compareLoop 7 [] 1
    {| bankTransactions := [Examples.bankJan10];
       budgetTransactions := [Examples.budgetJan05];
       missingTransactions := [] |}
  = {| bankTransactions := [setMatching Examples.bankJan10 (Some (BudgetRef 0))];
       budgetTransactions := [setMatching Examples.budgetJan05 (Some (BankRef 0))];
       missingTransactions := [] |}.
Proof.
  intros lib. apply State_eq;
    apply (range_acceptance_is_exclusive (lib := lib) 7 []
             {| bankTransactions := [Examples.bankJan10];
                budgetTransactions := [Examples.budgetJan05];
                missingTransactions := [] |}
             0 Examples.bankJan10 0 Examples.budgetJan05);
    try reflexivity; try (unfold rangeInBounds, maxRangeDays; lia); simpl; lia.
Defined.

(** C1 as the specification states it fails: the only candidate, of the bank
    entry's amount and exactly 7 days before it, is selected and lies in the
    range with both ends included, and yet no link is set and the bank entry
    is reported missing. *)
Lemma range_boundary_is_rejected :
  selected Examples.bankJan10 [Examples.budgetJan03] = Some 0%nat
  /\ spec_inDateRange dateMatchRangeDays Examples.bankJan10 Examples.budgetJan03 = true
  /\ inDateRange dateMatchRangeDays Examples.bankJan10 Examples.budgetJan03 = false
  /\ compareTransactions (lib := Std.lib Examples.noFiles) dateMatchRangeDays
       [Examples.bankJan10] [Examples.budgetJan03] []
     = {| bankTransactions := [Examples.bankJan10];
          budgetTransactions := [Examples.budgetJan03];
          missingTransactions := [Examples.bankJan10] |}.
Proof. repeat split; vm_compute; reflexivity. Qed.

(** C2, as amended.  [parseBankTransactions] fails with an error exactly when
    no record is a header record, a header record being one of more than
    three fields whose first three are Date, Description, Amount; otherwise it
    parses from two records past the last header record on, so that no
    record up to the one after that header is parsed. *)
Theorem parseBank_starts_after_last_header {lib : GoLib}
    (bankRecords : list (list string)) :
  ((exists e, parseBankTransactions bankRecords = Err e)
   <-> Forall (fun r => isHeaderRecord r = false) bankRecords)
  /\ (forall (k : nat) (h : list string),
         bankRecords !! k = Some h ->
         isHeaderRecord h = true ->
         (forall k' r, (k < k')%nat -> bankRecords !! k' = Some r ->
                       isHeaderRecord r = false) ->
         parseBankTransactions bankRecords
         = parseRecords (drop (k + 2) bankRecords) 0 1 2 (-1) [])
  /\ (forall r,
         isHeaderRecord r = true
         <-> exists field3 rest,
             r = "Date"%string :: "Description"%string :: "Amount"%string
                 :: field3 :: rest).
Proof.
  split; [| split; [| apply isHeaderRecord_shape]].
  - unfold parseBankTransactions.
    destruct (findStart_cases bankRecords 0 (-1))
      as [(Hall & ->) | (k & h & Hk & Hh & _ & ->)].
    + simpl. split; [intros _; exact Hall | intros _; eauto].
    + destruct (Z.ltb_spec (0 + Z.of_nat k + 2) 0) as [Hlt | _]; [lia |].
      split.
      * intros (e & He). exfalso. eapply parseRecords_no_error; eauto.
      * intros Hall. rewrite Forall_forall in Hall.
        rewrite Hall in Hh; [discriminate |]. eapply list_elem_of_lookup_2; eauto.
  - intros k h Hk Hh Hlast. unfold parseBankTransactions.
    destruct (findStart_cases bankRecords 0 (-1))
      as [(Hall & _) | (k0 & h0 & Hk0 & Hh0 & Hlast0 & ->)].
    + rewrite Forall_forall in Hall.
      rewrite Hall in Hh; [discriminate |]. eapply list_elem_of_lookup_2; eauto.
    + assert (k0 = k) as ->.
      { destruct (Nat.lt_trichotomy k0 k) as [Hlt | [Heq | Hgt]]; [| exact Heq |].
        - rewrite (Hlast0 k h Hlt Hk) in Hh. discriminate.
        - rewrite (Hlast k0 h0 Hgt Hk0) in Hh0. discriminate. }
      destruct (Z.ltb_spec (0 + Z.of_nat k + 2) 0) as [Hlt | _]; [lia |].
      replace (Z.to_nat (0 + Z.of_nat k + 2)) with (k + 2)%nat by lia.
      reflexivity.
Qed.

(** C2 as the specification states it fails twice.  A header record of
    exactly three fields is not taken for a header, so that the input is
    refused where the specification parses it; and of two header records the
    code starts after the last one, where the specification starts after the
    first. *)
Lemma parseBank_header_counterexample :
  let lib := Std.lib Examples.noFiles in
  parseBankTransactions
    [Examples.shortHeaderRecord; Examples.balanceRecord; Examples.coffeeRecord]
  = Err ErrNoStart
  /\ spec_parseBankTransactions
       [Examples.shortHeaderRecord; Examples.balanceRecord; Examples.coffeeRecord]
     = Ok [Examples.entry 19724 "COFFEE" (-450)]
  /\ parseBankTransactions
       [Examples.headerRecord; Examples.balanceRecord; Examples.coffeeRecord;
        Examples.headerRecord; Examples.balanceRecord; Examples.lunchRecord]
     = Ok [Examples.entry 19725 "LUNCH" (-1200)]
  /\ spec_parseBankTransactions
       [Examples.headerRecord; Examples.balanceRecord; Examples.coffeeRecord;
        Examples.headerRecord; Examples.balanceRecord; Examples.lunchRecord]
     = Ok [Examples.entry 19724 "COFFEE" (-450); Examples.entry 19725 "LUNCH" (-1200)].
Proof. repeat split; vm_compute; reflexivity. Qed.

(** C3 fails on the code (a defect of the code).  The amount text 0.29 is
    parsed into the nearest binary64 number, whose product with 100 lies just
    below 29, and the conversion to [int] drops the fraction: the amount is
    28 cents, where rounding the exact value gives 29. *)
Theorem amount_cents_are_truncated :
  parseTransaction (lib := Std.lib Examples.noFiles) Examples.centsRecord 0 1 2 (-1)
  = Ok (Examples.entry 19724 "COFFEE" 28)
  /\ spec_roundCents (29 # 100) = 29.
Proof. split; vm_compute; reflexivity. Qed.

(** C4 fails on the code (a defect of the code).  A record after the header
    that holds a date and nothing else makes [parseTransaction] index past
    its end: the run panics, the record is not skipped, and the records after
    it are not parsed. *)
Theorem short_record_panics :
  let lib := Std.lib Examples.noFiles in
  parseTransaction Examples.dateOnlyRecord 0 1 2 (-1) = Panic
  /\ parseBankTransactions
       [Examples.headerRecord; Examples.balanceRecord; Examples.dateOnlyRecord;
        Examples.coffeeRecord]
     = Panic
  /\ parseBudgetTransactions [Examples.headerRecord; Examples.dateOnlyRecord] = Panic.
Proof. repeat split; vm_compute; reflexivity. Qed.

(** C5.  After [compareTransactions] on entries that come unmatched, every
    link of a bank entry leads to a budget entry that no other bank entry
    took (its own link leads back to that bank entry), of exactly the same
    amount, dated on or before it (the hours between them are not negative),
    and no budget entry of that amount, dated on or before it and not taken by
    an earlier bank entry, is closer; among those as close, the linked one
    comes first in the budget list. *)
Theorem matches_are_closest_eligible {lib : GoLib} (R : Z) (fs : list Filter)
    (bank0 budget0 : list Transaction) :
  Forall (fun t => Matching t = None) bank0 ->
  Forall (fun t => Matching t = None) budget0 ->
  let st := compareTransactions R bank0 budget0 fs in
  forall i t p,
    bankTransactions st !! i = Some t ->
    Matching t = Some p ->
    exists j cT,
      p = BudgetRef j
      /\ budgetTransactions st !! j = Some cT
      /\ Matching cT = Some (BankRef i)
      /\ (forall i' t', bankTransactions st !! i' = Some t' ->
                        Matching t' = Some (BudgetRef j) -> i' = i)
      /\ Amount t = Amount cT
      /\ Timestamp cT <= Timestamp t
      /\ (0 <= hoursBefore t cT)%Q
      /\ forall k cK,
          budgetTransactions st !! k = Some cK ->
          Amount t = Amount cK ->
          Timestamp cK <= Timestamp t ->
          (forall i', Matching cK = Some (BankRef i') -> (i <= i')%nat) ->
          Timestamp t - Timestamp cT <= Timestamp t - Timestamp cK
          /\ (Timestamp cK = Timestamp cT -> (j <= k)%nat).
Proof.
  intros Hbank Hbudget st i t p Hi HM.
  pose proof (Inv_loop R fs bank0 budget0 Hbank Hbudget (length bank0)) as HI.
  fold (compareTransactions R bank0 budget0 fs) in HI. fold st in HI.
  destruct (inv_bank_link _ _ _ _ _ _ HI i t p Hi HM)
    as (j & cT & -> & Hj & HMc & HA & HT & _ & Hbest).
  exists j, cT. repeat split; auto.
  - intros i' t' Hi' HM'.
    destruct (inv_bank_link _ _ _ _ _ _ HI i' t' _ Hi' HM')
      as (j' & cT' & Heq & Hj' & HMc' & _).
    inversion Heq; subst j'. rewrite Hj in Hj'. inversion Hj'; subst cT'.
    congruence.
  - apply (proj2 (Hours_nonneg_Q _)), Time_Sub_nonneg. exact HT.
  - destruct (Hbest k cK) as [Hle _]; auto. lia.
  - destruct (Hbest k cK) as [_ Hfirst]; auto.
Qed.

Lemma matches_are_closest_eligible_witness :
  let st := compareTransactions (lib := Std.lib Examples.noFiles) 7
              [Examples.bankJan10; Examples.bankJan11]
              [Examples.budgetJan05; Examples.budgetJan08; Examples.budgetJan08b] [] in
  exists j cT,
    BudgetRef 1 = BudgetRef j
    /\ budgetTransactions st !! j = Some cT
    /\ Matching cT = Some (BankRef 0)
    /\ (forall i' t', bankTransactions st !! i' = Some t' ->
                      Matching t' = Some (BudgetRef j) -> i' = 0%nat)
    /\ Amount (setMatching Examples.bankJan10 (Some (BudgetRef 1))) = Amount cT
    /\ Timestamp cT <= Timestamp (setMatching Examples.bankJan10 (Some (BudgetRef 1)))
    /\ (0 <= hoursBefore (setMatching Examples.bankJan10 (Some (BudgetRef 1))) cT)%Q
    /\ forall k cK,
        budgetTransactions st !! k = Some cK ->
        Amount (setMatching Examples.bankJan10 (Some (BudgetRef 1))) = Amount cK ->
        Timestamp cK <= Timestamp (setMatching Examples.bankJan10 (Some (BudgetRef 1))) ->
        (forall i', Matching cK = Some (BankRef i') -> (0 <= i')%nat) ->
        Timestamp (setMatching Examples.bankJan10 (Some (BudgetRef 1))) - Timestamp cT
        <= Timestamp (setMatching Examples.bankJan10 (Some (BudgetRef 1))) - Timestamp cK
        /\ (Timestamp cK = Timestamp cT -> (j <= k)%nat).
Proof.
  intros st.
  apply (matches_are_closest_eligible (lib := Std.lib Examples.noFiles) 7 []
           [Examples.bankJan10; Examples.bankJan11]
           [Examples.budgetJan05; Examples.budgetJan08; Examples.budgetJan08b]);
    [repeat constructor | repeat constructor | reflexivity | reflexivity].
Defined.

(** C6.  During a run of [compareTransactions] on entries that come
    unmatched, in the state after any number of turns: a link that is set
    stays as it is in every later state; the link of a bank entry leads to a
    budget entry whose link leads back to it, and conversely; and no two
    bank entries, and no two budget entries, hold the same link.  The state
    after the last turn is the one [compareTransactions] returns. *)
Theorem matching_is_a_final_symmetric_pairing {lib : GoLib} (R : Z)
    (fs : list Filter) (bank0 budget0 : list Transaction) :
  Forall (fun t => Matching t = None) bank0 ->
  Forall (fun t => Matching t = None) budget0 ->
  let run n :=
    compareLoop R fs n
      {| bankTransactions := bank0;
         budgetTransactions := budget0;
         missingTransactions := [] |} in
  compareTransactions R bank0 budget0 fs = run (length bank0)
  /\ (forall n m i t, (n <= m)%nat ->
        bankTransactions (run n) !! i = Some t -> Matching t <> None ->
        bankTransactions (run m) !! i = Some t)
  /\ (forall n m j cT, (n <= m)%nat ->
        budgetTransactions (run n) !! j = Some cT -> Matching cT <> None ->
        budgetTransactions (run m) !! j = Some cT)
  /\ (forall n i t p,
        bankTransactions (run n) !! i = Some t -> Matching t = Some p ->
        exists j cT, p = BudgetRef j
                     /\ budgetTransactions (run n) !! j = Some cT
                     /\ Matching cT = Some (BankRef i))
  /\ (forall n j cT p,
        budgetTransactions (run n) !! j = Some cT -> Matching cT = Some p ->
        exists i t, p = BankRef i
                    /\ bankTransactions (run n) !! i = Some t
                    /\ Matching t = Some (BudgetRef j))
  /\ (forall n i1 i2 t1 t2 p,
        bankTransactions (run n) !! i1 = Some t1 ->
        bankTransactions (run n) !! i2 = Some t2 ->
        Matching t1 = Some p -> Matching t2 = Some p -> i1 = i2)
  /\ (forall n j1 j2 c1 c2 p,
        budgetTransactions (run n) !! j1 = Some c1 ->
        budgetTransactions (run n) !! j2 = Some c2 ->
        Matching c1 = Some p -> Matching c2 = Some p -> j1 = j2).
Proof.
  intros Hbank Hbudget run.
  assert (HI : forall n, Inv R bank0 budget0 n
                         (bankTransactions (run n)) (budgetTransactions (run n)))
    by (intros n; apply Inv_loop; assumption).
  assert (Hfwd : forall n i t p,
             bankTransactions (run n) !! i = Some t -> Matching t = Some p ->
             exists j cT, p = BudgetRef j
                          /\ budgetTransactions (run n) !! j = Some cT
                          /\ Matching cT = Some (BankRef i)).
  { intros n i t p Hi HM.
    destruct (inv_bank_link _ _ _ _ _ _ (HI n) i t p Hi HM) as (j & cT & ? & ? & ? & _).
    eauto. }
  assert (Hbwd : forall n j cT p,
             budgetTransactions (run n) !! j = Some cT -> Matching cT = Some p ->
             exists i t, p = BankRef i
                         /\ bankTransactions (run n) !! i = Some t
                         /\ Matching t = Some (BudgetRef j)).
  { intros n j cT p Hj HM.
    destruct (inv_budget_link _ _ _ _ _ _ (HI n) j cT p Hj HM) as (i & t & ? & _ & ? & ?).
    eauto. }
  split; [reflexivity |].
  split; [intros n m i t Hle; apply loop_keeps_bank; assumption |].
  split; [intros n m j cT Hle; apply loop_keeps_budget; assumption |].
  split; [exact Hfwd |]. split; [exact Hbwd |]. split.
  - intros n i1 i2 t1 t2 p H1 H2 HM1 HM2.
    destruct (Hfwd n i1 t1 p H1 HM1) as (j & cT & -> & Hj & HMc).
    destruct (Hfwd n i2 t2 _ H2 HM2) as (j' & cT' & Heq & Hj' & HMc').
    inversion Heq; subst j'. rewrite Hj in Hj'. inversion Hj'; subst cT'.
    rewrite HMc in HMc'. inversion HMc'. reflexivity.
  - intros n j1 j2 c1 c2 p H1 H2 HM1 HM2.
    destruct (Hbwd n j1 c1 p H1 HM1) as (i & t & -> & Hi & HMt).
    destruct (Hbwd n j2 c2 _ H2 HM2) as (i' & t' & Heq & Hi' & HMt').
    inversion Heq; subst i'. rewrite Hi in Hi'. inversion Hi'; subst t'.
    rewrite HMt in HMt'. inversion HMt'. reflexivity.
Qed.

Lemma matching_is_a_final_symmetric_pairing_witness :
  let lib := Std.lib Examples.noFiles in
  let run n :=
    compareLoop 7 [] n
      {| bankTransactions := [Examples.bankJan10; Examples.bankJan11];
         budgetTransactions := [Examples.budgetJan05; Examples.budgetJan08];
         missingTransactions := [] |} in
  bankTransactions (run 2%nat) !! 0%nat
  = Some (setMatching Examples.bankJan10 (Some (BudgetRef 1))).
Proof.
  intros lib run.
  apply (proj1 (proj2 (matching_is_a_final_symmetric_pairing (lib := lib) 7 []
                         [Examples.bankJan10; Examples.bankJan11]
                         [Examples.budgetJan05; Examples.budgetJan08]
                         ltac:(repeat constructor) ltac:(repeat constructor)))
           1%nat 2%nat 0%nat);
    [lia | reflexivity | discriminate].
Defined.

(** C7, as amended.  [loadFilters] returns the rules that the file decodes
    to whatever their patterns are: a pattern that is no regular expression
    is not refused when the list is loaded.  It is compiled anew each time
    [isFiltered] comes to its rule, the error of the compilation is dropped
    there, and the rule filters nothing. *)
Theorem loadFilters_accepts_any_pattern {lib : GoLib} (filterPath : string)
    (buf : File) (filters : list Filter) :
  ioutil_ReadFile filterPath = Some buf ->
  json_Unmarshal buf = Some filters ->
  loadFilters filterPath = Ok filters
  /\ forall f t,
      f ∈ filters ->
      regexp_Compile (FilterRegex f) = None ->
      regexp_MatchString (FilterRegex f) (Description t) = (false, Some ErrRegexpSyntax)
      /\ isFiltered t [f] = false.
Proof.
  intros Hread Hjson. split.
  - unfold loadFilters. rewrite Hread, Hjson. reflexivity.
  - intros f t _ Hbad. split.
    + unfold regexp_MatchString. rewrite Hbad. reflexivity.
    + rewrite isFiltered_cons, ruleMatches_invalid by exact Hbad. reflexivity.
Qed.

Lemma loadFilters_accepts_any_pattern_witness :
  let lib := Std.lib Examples.badFilterFile in
  loadFilters "filter.json" = Ok [Examples.badRule]
  /\ forall f t,
      f ∈ [Examples.badRule] ->
      regexp_Compile (FilterRegex f) = None ->
      regexp_MatchString (FilterRegex f) (Description t) = (false, Some ErrRegexpSyntax)
      /\ isFiltered t [f] = false.
Proof.
  intros lib.
  apply (loadFilters_accepts_any_pattern (lib := lib) "filter.json" [Examples.badRule]);
    reflexivity.
Defined.

(** C7 as the specification states it fails: the file holds a rule whose
    pattern does not compile, and [loadFilters] returns it, where the
    loading of the specification is an error. *)
Lemma loadFilters_takes_invalid_pattern :
  let lib := Std.lib Examples.badFilterFile in
  regexp_Compile (FilterRegex Examples.badRule) = None
  /\ loadFilters "filter.json" = Ok [Examples.badRule]
  /\ spec_loadFilters "filter.json" = Err ErrRegexpSyntax.
Proof. repeat split; vm_compute; reflexivity. Qed.

(** C8.  [isFiltered t fs] holds exactly when some rule of [fs] has a pattern
    that compiles and matches the description of [t], and bounds that
    hold the amount of [t], both included; the order of the rules does not
    matter; and a bank entry that is filtered, the entries coming unmatched,
    is left as it is by [compareTransactions]: it has no link, no budget
    entry is linked to it, and it is not in the result. *)
Theorem isFiltered_is_any_rule {lib : GoLib} (t : Transaction) (fs : list Filter) :
  (isFiltered t fs = true
   <-> exists f, f ∈ fs
                 /\ (exists re, regexp_Compile (FilterRegex f) = Some re
                                /\ Regexp_MatchString re (Description t) = true)
                 /\ MinAmount f <= Amount t <= MaxAmount f)
  /\ (forall fs', fs ≡ₚ fs' -> isFiltered t fs' = isFiltered t fs)
  /\ (forall R bank0 budget0 i,
         Forall (fun t => Matching t = None) bank0 ->
         Forall (fun t => Matching t = None) budget0 ->
         bank0 !! i = Some t ->
         isFiltered t fs = true ->
         let st := compareTransactions R bank0 budget0 fs in
         bankTransactions st !! i = Some t
         /\ Matching t = None
         /\ (forall j cT, budgetTransactions st !! j = Some cT ->
                          Matching cT <> Some (BankRef i))
         /\ t ∉ missingTransactions st).
Proof.
  split; [| split].
  - rewrite isFiltered_iff. split.
    + intros (f & Hf & Hm). apply ruleMatches_iff in Hm. eauto.
    + intros (f & Hf & Hm). exists f. split; [exact Hf |]. apply ruleMatches_iff. exact Hm.
  - intros fs' Hperm. symmetry. apply isFiltered_Permutation. exact Hperm.
  - intros R bank0 budget0 i Hbank Hbudget Hi Hf st.
    assert (HM : Matching t = None).
    { rewrite Forall_forall in Hbank. apply Hbank. eapply list_elem_of_lookup_2; eauto. }
    assert (Hst : bankTransactions st !! i = Some t).
    { apply loop_bank_filtered; [exact Hi | exact Hf]. }
    split; [exact Hst |]. split; [exact HM |]. split.
    + intros j cT Hj HMc.
      pose proof (Inv_loop R fs bank0 budget0 Hbank Hbudget (length bank0)) as HI.
      destruct (inv_budget_link _ _ _ _ _ _ HI j cT _ Hj HMc)
        as (i' & t' & Heq & _ & Hi' & HMt').
      inversion Heq; subst i'. fold (compareTransactions R bank0 budget0 fs) in Hi'.
      fold st in Hi'. congruence.
    + intros Hin. unfold st, compareTransactions in Hin.
      rewrite loop_missing in Hin. simpl in Hin.
      apply list_elem_of_In, List.filter_In in Hin as [_ Hmiss].
      unfold isMissing in Hmiss. rewrite Hf in Hmiss. discriminate.
Qed.

(** C9.  After [compareTransactions] the result is the list of the bank
    entries that are not filtered and have no link, in the order of the bank
    list, which is the order of the input, the parsed fields of every entry
    being those of the input; so a bank entry that is not filtered either has
    a link and is not in the result, or has none and is in it. *)
Theorem missing_are_the_unmatched_in_order {lib : GoLib} (R : Z) (fs : list Filter)
    (bank0 budget0 : list Transaction) :
  let st := compareTransactions R bank0 budget0 fs in
  missingTransactions st = List.filter (isMissing fs) (bankTransactions st)
  /\ (fun t => setMatching t None) <$> bankTransactions st
     = (fun t => setMatching t None) <$> bank0
  /\ (forall t, t ∈ bankTransactions st ->
                isFiltered t fs = false ->
                (Matching t <> None /\ t ∉ missingTransactions st)
                \/ (Matching t = None /\ t ∈ missingTransactions st)).
Proof.
  intros st.
  assert (Hlen : length (bankTransactions st) = length bank0).
  { rewrite <- (length_fmap (fun t => setMatching t None)).
    unfold st, compareTransactions. rewrite loop_bank_data. simpl.
    apply length_fmap. }
  assert (Hmiss : missingTransactions st
                  = List.filter (isMissing fs) (bankTransactions st)).
  { unfold st, compareTransactions. rewrite loop_missing. simpl.
    fold (compareTransactions R bank0 budget0 fs). fold st.
    rewrite take_ge by lia. reflexivity. }
  split; [exact Hmiss |]. split.
  - unfold st, compareTransactions. rewrite loop_bank_data. reflexivity.
  - intros t Hin Hf. rewrite Hmiss.
    destruct (Matching t) as [p |] eqn:HM.
    + left. split; [discriminate |].
      intros Hin'. apply list_elem_of_In, List.filter_In in Hin' as [_ Hm].
      unfold isMissing in Hm. rewrite HM, andb_false_r in Hm. discriminate.
    + right. split; [reflexivity |].
      apply list_elem_of_In, List.filter_In. split; [apply list_elem_of_In; exact Hin |].
      unfold isMissing. rewrite Hf, HM. reflexivity.
Qed.

(** C10.  [isFiltered] is a total function into the booleans.  A rule whose
    pattern does not compile makes [regexp.MatchString] answer false with an
    error that [isFiltered] drops: alone the rule filters nothing, and in a
    list the answer is the one of the list without it.  The rules before and
    after it are evaluated all the same: the transaction is filtered exactly
    when one of them has a pattern that compiles and matches its description
    and bounds that hold its amount. *)
Theorem invalid_pattern_never_filters {lib : GoLib} (t : Transaction)
    (fs1 fs2 : list Filter) (f : Filter) :
  regexp_Compile (FilterRegex f) = None ->
  regexp_MatchString (FilterRegex f) (Description t) = (false, Some ErrRegexpSyntax)
  /\ isFiltered t [f] = false
  /\ isFiltered t (fs1 ++ f :: fs2) = isFiltered t (fs1 ++ fs2)
  /\ (isFiltered t (fs1 ++ f :: fs2) = true
      <-> exists g, g ∈ fs1 ++ fs2
                    /\ (exists re, regexp_Compile (FilterRegex g) = Some re
                                   /\ Regexp_MatchString re (Description t) = true)
                    /\ MinAmount g <= Amount t <= MaxAmount g).
Proof.
  intros Hbad.
  assert (Hskip : isFiltered t (fs1 ++ f :: fs2) = isFiltered t (fs1 ++ fs2)).
  { rewrite !isFiltered_app, isFiltered_cons, ruleMatches_invalid by exact Hbad.
    reflexivity. }
  split; [| split; [| split; [exact Hskip |]]].
  - unfold regexp_MatchString. rewrite Hbad. reflexivity.
  - rewrite isFiltered_cons, ruleMatches_invalid by exact Hbad. reflexivity.
  - rewrite Hskip, isFiltered_iff. split.
    + intros (g & Hg & Hm). apply ruleMatches_iff in Hm. eauto.
    + intros (g & Hg & Hm). exists g. split; [exact Hg |].
      apply ruleMatches_iff. exact Hm.
Qed.

Lemma invalid_pattern_never_filters_witness :
  let lib := Std.lib Examples.noFiles in
  isFiltered Examples.bankTransfer ([] ++ Examples.badRule :: [Examples.transferRule])
  = true
  /\ isFiltered Examples.bankJan10 ([] ++ Examples.badRule :: [Examples.transferRule])
     = isFiltered Examples.bankJan10 ([] ++ [Examples.transferRule]).
Proof.
  intros lib. split.
  - apply (invalid_pattern_never_filters (lib := lib) Examples.bankTransfer []
             [Examples.transferRule] Examples.badRule eq_refl).
    exists Examples.transferRule. split; [apply list_elem_of_singleton; reflexivity |].
    split; [exists "TRANSFER"%string; split; reflexivity | simpl; lia].
  - apply (invalid_pattern_never_filters (lib := lib) Examples.bankJan10 []
             [Examples.transferRule] Examples.badRule eq_refl).
Defined.

(** * Further properties of the code *)

(** ** The record parser *)

Lemma parseTransaction_in_range {lib : GoLib} (record : list string)
    (ti di ai xi : Z) :
  0 <= ti < Z.of_nat (length record) ->
  0 <= di < Z.of_nat (length record) ->
  0 <= ai < Z.of_nat (length record) ->
  xi < Z.of_nat (length record) ->
  parseTransaction record ti di ai xi <> Panic.
Proof.
  intros Hti Hdi Hai Hxi.
  assert (Hidx : forall i, 0 <= i < Z.of_nat (length record) ->
                           exists x, index record i = Some x).
  { intros i Hi. unfold index.
    destruct (Z.ltb_spec i 0) as [? | _]; [lia |].
    destruct (lookup_lt_is_Some_2 record (Z.to_nat i)) as [x Hx]; [lia | eauto]. }
  unfold parseTransaction.
  destruct (Hidx ti Hti) as [ts ->].
  destruct (time_Parse _ ts); [| discriminate].
  destruct (Hidx ai Hai) as [am ->].
  destruct (strconv_ParseFloat _); [| discriminate].
  destruct (Hidx di Hdi) as [descr Hd].
  destruct (Z.ltb_spec 0 xi) as [Hpos | _].
  - destruct (Hidx xi (conj (Z.lt_le_incl _ _ Hpos) Hxi)) as [d ->].
    rewrite Hd. discriminate.
  - rewrite Hd. discriminate.
Qed.

Lemma parseRecords_cases {lib : GoLib} (records : list (list string))
    (ti di ai xi : Z) (acc : list Transaction) :
  (Exists (fun r => parseTransaction r ti di ai xi = Panic) records
   /\ parseRecords records ti di ai xi acc = Panic)
  \/ (Forall (fun r => parseTransaction r ti di ai xi <> Panic) records
      /\ parseRecords records ti di ai xi acc
         = Ok (acc ++ omap (parsedRecord ti di ai xi) records)).
Proof.
  revert acc. induction records as [| record rest IH]; intros acc; simpl.
  - right. split; [constructor | rewrite app_nil_r; reflexivity].
  - unfold parsedRecord at 1.
    destruct (parseTransaction record ti di ai xi) as [t | e |] eqn:Hp.
    + destruct (IH (acc ++ [t])) as [[Hex ->] | [Hall ->]].
      * left. split; [apply Exists_cons_tl; exact Hex | reflexivity].
      * right. split; [constructor; [congruence | exact Hall] |].
        rewrite <- app_assoc. reflexivity.
    + destruct (IH acc) as [[Hex ->] | [Hall ->]].
      * left. split; [apply Exists_cons_tl; exact Hex | reflexivity].
      * right. split; [constructor; [congruence | exact Hall] | reflexivity].
    + left. split; [apply Exists_cons_hd; exact Hp | reflexivity].
Qed.

(** X1.  The loop of the two profiles returns the transactions of the
    records that parse, in the order of the records, the others being skipped,
    unless some record makes [parseTransaction] panic, and then it panics
    whatever the other records are. *)
Theorem parseRecords_keeps_order {lib : GoLib} (records : list (list string))
    (ti di ai xi : Z) :
  ((Exists (fun r => parseTransaction r ti di ai xi = Panic) records
    /\ parseRecords records ti di ai xi [] = Panic)
   \/ (Forall (fun r => parseTransaction r ti di ai xi <> Panic) records
       /\ parseRecords records ti di ai xi []
          = Ok (omap (parsedRecord ti di ai xi) records)))
  /\ parseBudgetTransactions records = parseRecords (drop 1 records) 0 2 4 3 []
  /\ (forall start, 0 <= start -> findStart records 0 (-1) = start ->
        parseBankTransactions records
        = parseRecords (drop (Z.to_nat start) records) 0 1 2 (-1) []).
Proof.
  split; [apply (parseRecords_cases records ti di ai xi []) |].
  split; [reflexivity |].
  intros start Hpos Hstart. unfold parseBankTransactions. rewrite Hstart.
  destruct (Z.ltb_spec start 0); [lia | reflexivity].
Qed.

(** X2.  When every record of the bank statement has at least three
    fields, [parseBankTransactions] does not panic: it answers with the
    missing-header error or with a list. *)
Theorem parseBank_safe_on_three_fields {lib : GoLib} (bankRecords : list (list string)) :
  Forall (fun r => (3 <= length r)%nat) bankRecords ->
  parseBankTransactions bankRecords = Err ErrNoStart
  \/ exists transactions, parseBankTransactions bankRecords = Ok transactions.
Proof.
  intros Hlen. unfold parseBankTransactions.
  destruct (findStart bankRecords 0 (-1) <? 0); [left; reflexivity | right].
  set (rest := drop _ bankRecords).
  destruct (parseRecords_cases rest 0 1 2 (-1) []) as [[Hex _] | [_ ->]]; [| eauto].
  exfalso. apply Exists_exists in Hex as (r & Hr & Hp).
  rewrite Forall_forall in Hlen.
  assert (Hr3 : (3 <= length r)%nat).
  { apply Hlen. apply list_elem_of_lookup in Hr as [i Hi].
    unfold rest in Hi. rewrite lookup_drop in Hi.
    eapply list_elem_of_lookup_2; eauto. }
  revert Hp. apply parseTransaction_in_range; lia.
Qed.

Lemma parseBank_safe_on_three_fields_witness :
  parseBankTransactions (lib := Std.lib Examples.noFiles)
    [Examples.headerRecord; Examples.balanceRecord; Examples.coffeeRecord]
  = Err ErrNoStart
  \/ exists transactions,
      parseBankTransactions (lib := Std.lib Examples.noFiles)
        [Examples.headerRecord; Examples.balanceRecord; Examples.coffeeRecord]
      = Ok transactions.
Proof.
  apply (parseBank_safe_on_three_fields (lib := Std.lib Examples.noFiles)).
  repeat constructor.
Defined.

(** X3.  [parseBudgetTransactions] never returns an error: the first record
    is dropped unread, an input of at most one record gives the empty list,
    and when every record after the first has at least five fields the
    answer is a list. *)
Theorem parseBudget_never_errors {lib : GoLib} (budgetRecords : list (list string)) :
  (forall e, parseBudgetTransactions budgetRecords <> Err e)
  /\ ((length budgetRecords <= 1)%nat -> parseBudgetTransactions budgetRecords = Ok [])
  /\ (forall first first' rest,
         parseBudgetTransactions (first :: rest) = parseBudgetTransactions (first' :: rest))
  /\ (Forall (fun r => (5 <= length r)%nat) (drop 1 budgetRecords) ->
      exists transactions, parseBudgetTransactions budgetRecords = Ok transactions).
Proof.
  unfold parseBudgetTransactions. repeat split.
  - intros e. apply parseRecords_no_error.
  - intros Hlen. destruct budgetRecords as [| r [| r' rest]]; simpl in *;
      [reflexivity | reflexivity | lia].
  - intros Hlen.
    destruct (parseRecords_cases (drop 1 budgetRecords) 0 2 4 3 [])
      as [[Hex _] | [_ ->]]; [| eauto].
    exfalso. apply Exists_exists in Hex as (r & Hr & Hp).
    rewrite Forall_forall in Hlen. specialize (Hlen r Hr).
    revert Hp. apply parseTransaction_in_range; lia.
Qed.

(** X4.  A header record that is the last record, or the one before the
    last, leaves nothing to parse: the answer is the empty list, with no
    error. *)
Theorem parseBank_header_at_end {lib : GoLib} (bankRecords : list (list string))
    (k : nat) (h : list string) :
  bankRecords !! k = Some h ->
  isHeaderRecord h = true ->
  (length bankRecords <= k + 2)%nat ->
  parseBankTransactions bankRecords = Ok [].
Proof.
  intros Hk Hh Hlen. unfold parseBankTransactions.
  destruct (findStart_cases bankRecords 0 (-1))
    as [(Hall & _) | (k0 & h0 & Hk0 & Hh0 & Hlast0 & ->)].
  - rewrite Forall_forall in Hall.
    rewrite Hall in Hh; [discriminate |]. eapply list_elem_of_lookup_2; eauto.
  - assert (Hge : (k <= k0)%nat).
    { destruct (Nat.le_gt_cases k k0) as [? | Hlt]; [assumption |].
      rewrite (Hlast0 k h Hlt Hk) in Hh. discriminate. }
    destruct (Z.ltb_spec (0 + Z.of_nat k0 + 2) 0) as [? | _]; [lia |].
    rewrite drop_ge by lia. reflexivity.
Qed.

Lemma parseBank_header_at_end_witness :
  parseBankTransactions (lib := Std.lib Examples.noFiles)
    [Examples.coffeeRecord; Examples.headerRecord; Examples.lunchRecord]
  = Ok [].
Proof.
  apply (parseBank_header_at_end (lib := Std.lib Examples.noFiles) _ 1%nat
           Examples.headerRecord); [reflexivity | reflexivity | simpl; lia].
Defined.

Lemma parseTransaction_fields {lib : GoLib} (record : list string)
    (ti di ai xi : Z) (t : Transaction) :
  parseTransaction record ti di ai xi = Ok t ->
  Matching t = None
  /\ index record di = Some (Description t)
  /\ (if 0 <? xi then index record xi = Some (Details t) else Details t = EmptyString)
  /\ exists ts am a,
      index record ti = Some ts
      /\ time_Parse "01/02/2006" ts = Some (Timestamp t)
      /\ index record ai = Some am
      /\ strconv_ParseFloat (removeCommas am) = Some a
      /\ Amount t = float64_to_int (a * 100)%float.
Proof.
  unfold parseTransaction. intros H.
  destruct (index record ti) as [ts |] eqn:Hts; [| discriminate].
  destruct (time_Parse _ ts) as [time |] eqn:Htime; [| discriminate].
  destruct (index record ai) as [am |] eqn:Ham; [| discriminate].
  destruct (strconv_ParseFloat _) as [a |] eqn:Ha; [| discriminate].
  destruct (0 <? xi) eqn:Hxi.
  - destruct (index record xi) as [d |] eqn:Hd; [| discriminate].
    destruct (index record di) as [descr |] eqn:Hdescr; [| discriminate].
    inversion H; subst; simpl. repeat split; auto. exists ts, am, a. auto.
  - destruct (index record di) as [descr |] eqn:Hdescr; [| discriminate].
    inversion H; subst; simpl. repeat split; auto. exists ts, am, a. auto.
Qed.

Lemma parseRecords_from_records {lib : GoLib} (records : list (list string))
    (ti di ai xi : Z) (transactions : list Transaction) (t : Transaction) :
  parseRecords records ti di ai xi [] = Ok transactions ->
  t ∈ transactions ->
  exists r, r ∈ records /\ parseTransaction r ti di ai xi = Ok t.
Proof.
  intros Hp Ht.
  destruct (parseRecords_cases records ti di ai xi []) as [[_ Hpanic] | [_ Hok]];
    [congruence |].
  rewrite Hok in Hp. inversion Hp; subst transactions. simpl in Ht.
  apply list_elem_of_omap in Ht as (r & Hr & Hparsed).
  exists r. split; [exact Hr |].
  unfold parsedRecord in Hparsed.
  destruct (parseTransaction r ti di ai xi); inversion Hparsed; reflexivity.
Qed.

(** X5.  The columns of the two profiles.  A transaction of the bank
    statement has the second field of one of its records for description, no
    details and no link; a transaction of the budget has the third and the
    fourth field of one of the records after the first for description and
    details, and no link.  In both the amount is the product by 100 of the
    number read in the amount column, commas removed, cut to an integer. *)
Theorem parsed_fields_by_profile {lib : GoLib} (records : list (list string))
    (transactions : list Transaction) (t : Transaction) :
  (parseBankTransactions records = Ok transactions ->
   t ∈ transactions ->
   Details t = EmptyString /\ Matching t = None
   /\ exists r date am a,
       r ∈ records
       /\ index r 0 = Some date /\ time_Parse "01/02/2006" date = Some (Timestamp t)
       /\ index r 1 = Some (Description t)
       /\ index r 2 = Some am /\ strconv_ParseFloat (removeCommas am) = Some a
       /\ Amount t = float64_to_int (a * 100)%float)
  /\ (parseBudgetTransactions records = Ok transactions ->
      t ∈ transactions ->
      Matching t = None
      /\ exists r date am a,
          r ∈ drop 1 records
          /\ index r 0 = Some date /\ time_Parse "01/02/2006" date = Some (Timestamp t)
          /\ index r 2 = Some (Description t)
          /\ index r 3 = Some (Details t)
          /\ index r 4 = Some am /\ strconv_ParseFloat (removeCommas am) = Some a
          /\ Amount t = float64_to_int (a * 100)%float).
Proof.
  split.
  - unfold parseBankTransactions.
    destruct (findStart records 0 (-1) <? 0); [discriminate |].
    intros Hp Ht.
    destruct (parseRecords_from_records _ _ _ _ _ _ _ Hp Ht) as (r & Hr & Hok).
    apply parseTransaction_fields in Hok
      as (HM & Hd & Hx & ts & am & a & Hts & Htime & Ham & Ha & HA).
    simpl in Hx. repeat split; auto.
    exists r, ts, am, a. repeat split; auto.
    apply list_elem_of_lookup in Hr as [i Hi]. rewrite lookup_drop in Hi.
    eapply list_elem_of_lookup_2; eauto.
  - unfold parseBudgetTransactions. intros Hp Ht.
    destruct (parseRecords_from_records _ _ _ _ _ _ _ Hp Ht) as (r & Hr & Hok).
    apply parseTransaction_fields in Hok
      as (HM & Hd & Hx & ts & am & a & Hts & Htime & Ham & Ha & HA).
    simpl in Hx. split; [exact HM |].
    exists r, ts, am, a. repeat split; auto.
Qed.

(** ** The filter engine *)

Lemma ruleMatches_same_fields {lib : GoLib} (t t' : Transaction) (f : Filter) :
  Description t = Description t' -> Amount t = Amount t' ->
  ruleMatches t f = ruleMatches t' f.
Proof. unfold ruleMatches. intros -> ->. reflexivity. Qed.

(** X6.  [isFiltered] looks at the description and at the amount only: two
    transactions that agree on both are filtered alike, whatever their dates,
    details and links. *)
Theorem isFiltered_reads_description_and_amount {lib : GoLib} (t t' : Transaction)
    (fs : list Filter) :
  Description t = Description t' ->
  Amount t = Amount t' ->
  isFiltered t fs = isFiltered t' fs.
Proof.
  intros Hd Ha. induction fs as [| f rest IH]; [reflexivity |].
  rewrite !isFiltered_cons, IH, (ruleMatches_same_fields t t' f Hd Ha). reflexivity.
Qed.

Lemma isFiltered_reads_description_and_amount_witness :
  isFiltered (lib := Std.lib Examples.noFiles) Examples.bankJan10 [Examples.transferRule]
  = isFiltered (lib := Std.lib Examples.noFiles) Examples.bankJan11 [Examples.transferRule].
Proof.
  apply (isFiltered_reads_description_and_amount (lib := Std.lib Examples.noFiles));
    reflexivity.
Defined.

(** X7.  The rules of two lists put end to end filter what the rules of one
    of the two filter; with no rule nothing is filtered, and adding rules,
    before or after, never lets through a transaction that was filtered. *)
Theorem isFiltered_of_joined_lists {lib : GoLib} (t : Transaction)
    (fs1 fs2 : list Filter) :
  isFiltered t (fs1 ++ fs2) = isFiltered t fs1 || isFiltered t fs2
  /\ isFiltered t [] = false
  /\ (isFiltered t fs1 = true ->
      isFiltered t (fs1 ++ fs2) = true /\ isFiltered t (fs2 ++ fs1) = true).
Proof.
  split; [apply isFiltered_app |]. split; [reflexivity |].
  intros H. rewrite !isFiltered_app, H. split; [reflexivity | apply orb_true_r].
Qed.

(** X8.  A rule whose upper bound is below its lower bound filters nothing,
    whatever its pattern: the list answers as it does without the rule. *)
Theorem empty_range_rule_never_filters {lib : GoLib} (t : Transaction)
    (fs1 fs2 : list Filter) (f : Filter) :
  MaxAmount f < MinAmount f ->
  isFiltered t (fs1 ++ f :: fs2) = isFiltered t (fs1 ++ fs2).
Proof.
  intros Hempty.
  assert (Hf : ruleMatches t f = false).
  { unfold ruleMatches.
    destruct (Z.leb_spec (MinAmount f) (Amount t));
      destruct (Z.leb_spec (Amount t) (MaxAmount f)); try lia;
      rewrite ?andb_false_r; reflexivity. }
  rewrite !isFiltered_app, isFiltered_cons, Hf. reflexivity.
Qed.

Lemma empty_range_rule_never_filters_witness :
  isFiltered (lib := Std.lib Examples.noFiles) Examples.bankJan10
    ([Examples.transferRule] ++ MoreExamples.emptyRangeRule :: [])
  = isFiltered (lib := Std.lib Examples.noFiles) Examples.bankJan10
      ([Examples.transferRule] ++ []).
Proof.
  apply (empty_range_rule_never_filters (lib := Std.lib Examples.noFiles)).
  simpl. lia.
Defined.

(** ** The reconciliation engine *)

Section MoreReconciliation.
Context {lib : GoLib}.
Variable R : Z.
Variable fs : list Filter.

(** When no pair of a bank entry and a budget entry passes the date check,
    no turn writes anything. *)
Lemma loop_unlinked (n : nat) (st : State) :
  (forall bankT cT,
      bankT ∈ bankTransactions st -> cT ∈ budgetTransactions st ->
      eligible bankT cT -> Timestamp bankT - Timestamp cT <= 4166 ->
      inDateRange R bankT cT = false) ->
  bankTransactions (compareLoop R fs n st) = bankTransactions st
  /\ budgetTransactions (compareLoop R fs n st) = budgetTransactions st.
Proof.
  intros Hno. induction n as [| n [IHb IHu]]; [split; reflexivity |].
  rewrite loop_S. set (s := compareLoop R fs n st) in *.
  destruct (bankTransactions s !! n) as [bankT |] eqn:Hn.
  - destruct (step_cases R fs n s bankT Hn)
      as [(_ & ->) | [(_ & c & closestT & Hsel & Hc & Hr & _) | (_ & _ & -> & -> & _)]];
      [auto | | auto].
    exfalso.
    apply selected_Some in Hsel as (cJ & HcJ & Hel & Hcap & _).
    rewrite Hc in HcJ. inversion HcJ; subst cJ.
    rewrite (Hno bankT closestT) in Hr; [discriminate | | | exact Hel | exact Hcap].
    + rewrite <- IHb. eapply list_elem_of_lookup_2; eauto.
    + rewrite <- IHu. eapply list_elem_of_lookup_2; eauto.
  - rewrite step_out_of_range by exact Hn. auto.
Qed.

Lemma compare_unlinked (bank budget : list Transaction) :
  (forall bankT cT,
      bankT ∈ bank -> cT ∈ budget ->
      eligible bankT cT -> Timestamp bankT - Timestamp cT <= 4166 ->
      inDateRange R bankT cT = false) ->
  compareTransactions R bank budget fs
  = {| bankTransactions := bank;
       budgetTransactions := budget;
       missingTransactions := List.filter (isMissing fs) bank |}.
Proof.
  intros Hno. unfold compareTransactions.
  set (st0 := {| bankTransactions := bank; budgetTransactions := budget;
                 missingTransactions := [] |}).
  destruct (loop_unlinked (length bank) st0 Hno) as [Hb Hu].
  apply State_eq; [exact Hb | exact Hu |].
  rewrite loop_missing, Hb. simpl. rewrite take_ge by lia. reflexivity.
Qed.

End MoreReconciliation.

(** X9.  For a range [dateMatchRangeDays] on which the date arithmetic does
    not overflow: when no budget entry that is not matched and has the amount
    of a bank entry lies from 0 to 4166 days before it and less than
    [dateMatchRangeDays] days away from it, [compareTransactions] writes no
    link, and its result is the list of the bank entries that are not filtered
    and have no link. *)
Theorem nothing_in_range_nothing_linked {lib : GoLib} (R : Z) (fs : list Filter)
    (bank budget : list Transaction) :
  rangeInBounds R ->
  (forall bankT cT,
      bankT ∈ bank -> cT ∈ budget ->
      Amount bankT = Amount cT -> Matching cT = None ->
      0 <= Timestamp bankT - Timestamp cT <= 4166 ->
      R <= Timestamp bankT - Timestamp cT) ->
  compareTransactions R bank budget fs
  = {| bankTransactions := bank;
       budgetTransactions := budget;
       missingTransactions := List.filter (isMissing fs) bank |}.
Proof.
  intros _ Hno. apply compare_unlinked.
  intros bankT cT Hb Hc (HA & HM & HT) Hcap.
  destruct (inDateRange R bankT cT) eqn:Hr; [| reflexivity].
  apply inDateRange_iff in Hr.
  specialize (Hno bankT cT Hb Hc HA HM). lia.
Qed.

Lemma nothing_in_range_nothing_linked_witness :
  compareTransactions (lib := Std.lib Examples.noFiles) 7
    [Examples.bankJan10; Examples.bankTransfer] [Examples.budgetJan03]
    [Examples.transferRule]
  = {| bankTransactions := [Examples.bankJan10; Examples.bankTransfer];
       budgetTransactions := [Examples.budgetJan03];
       missingTransactions :=
         List.filter (isMissing (lib := Std.lib Examples.noFiles) [Examples.transferRule])
           [Examples.bankJan10; Examples.bankTransfer] |}.
Proof.
  apply (nothing_in_range_nothing_linked (lib := Std.lib Examples.noFiles));
    [unfold rangeInBounds, maxRangeDays; lia |].
  intros bankT cT Hb Hc _ _ _.
  apply list_elem_of_singleton in Hc. subst cT.
  apply elem_of_cons in Hb as [-> | Hb];
    [| apply list_elem_of_singleton in Hb; subst bankT]; simpl; lia.
Defined.

(** X10.  With an empty budget, or with no bank entry, nothing is linked:
    the two slices come back as they were, and every bank entry that is not
    filtered and has no link is reported. *)
Theorem compare_with_an_empty_side {lib : GoLib} (R : Z) (fs : list Filter)
    (entries : list Transaction) :
  compareTransactions R entries [] fs
  = {| bankTransactions := entries;
       budgetTransactions := [];
       missingTransactions := List.filter (isMissing fs) entries |}
  /\ compareTransactions R [] entries fs
     = {| bankTransactions := [];
          budgetTransactions := entries;
          missingTransactions := [] |}.
Proof.
  split; [| reflexivity].
  apply compare_unlinked. intros bankT cT _ Hc. inversion Hc.
Qed.

(** X11.  With a date range of zero days or less, down to the bound under
    which the date arithmetic overflows, no entry is ever linked. *)
Theorem nonpositive_range_links_nothing {lib : GoLib} (R : Z) (fs : list Filter)
    (bank budget : list Transaction) :
  rangeInBounds R ->
  R <= 0 ->
  compareTransactions R bank budget fs
  = {| bankTransactions := bank;
       budgetTransactions := budget;
       missingTransactions := List.filter (isMissing fs) bank |}.
Proof.
  intros _ HR. apply compare_unlinked.
  intros bankT cT _ _ _ _.
  destruct (inDateRange R bankT cT) eqn:Hr; [| reflexivity].
  apply inDateRange_iff in Hr. lia.
Qed.

Lemma nonpositive_range_links_nothing_witness :
  compareTransactions (lib := Std.lib Examples.noFiles) 0
    [Examples.bankJan10] [Examples.entry 19732 "groceries" (-500)] []
  = {| bankTransactions := [Examples.bankJan10];
       budgetTransactions := [Examples.entry 19732 "groceries" (-500)];
       missingTransactions :=
         List.filter (isMissing (lib := Std.lib Examples.noFiles) [])
           [Examples.bankJan10] |}.
Proof.
  apply (nonpositive_range_links_nothing (lib := Std.lib Examples.noFiles));
    [unfold rangeInBounds, maxRangeDays; lia | lia].
Defined.

Section LinkBounds.
Context {lib : GoLib}.
Variable R : Z.
Variable fs : list Filter.

Local Abbreviation linksBounded := (linksBounded R).

Lemma linksBounded_step (n : nat) (st : State) :
  linksBounded (bankTransactions st) (budgetTransactions st) ->
  linksBounded (bankTransactions (matchBankIndex R fs n st))
               (budgetTransactions (matchBankIndex R fs n st)).
Proof.
  intros HL.
  destruct (bankTransactions st !! n) as [bankT |] eqn:Hn;
    [| rewrite step_out_of_range by exact Hn; exact HL].
  destruct (step_cases R fs n st bankT Hn)
    as [(_ & ->) | [(_ & c & closestT & Hsel & Hc & Hr & ->) | (_ & _ & -> & -> & _)]];
    [exact HL | | exact HL].
  apply selected_Some in Hsel as (cJ & HcJ & (HA & HM & HT) & Hcap & _).
  rewrite Hc in HcJ. inversion HcJ; subst cJ; clear HcJ.
  apply inDateRange_iff in Hr.
  pose proof (lookup_lt_Some _ _ _ Hc) as Hclt.
  intros i t p Hi HMt. simpl in Hi.
  apply list_lookup_insert_Some in Hi as [(<- & <- & _) | (Hne & Hi)].
  - simpl in HMt. inversion HMt; subst p.
    exists c, (setMatching closestT (Some (BankRef n))). simpl.
    split; [reflexivity |]. split; [apply list_lookup_insert_eq; exact Hclt |].
    split; [exact HA |]. split; lia.
  - destruct (HL i t p Hi HMt) as (j & cT & -> & Hj & HAj & Hwin & Hcapj).
    destruct (decide (c = j)) as [<- | Hcj].
    + rewrite Hc in Hj. inversion Hj; subst cT.
      exists c, (setMatching closestT (Some (BankRef n))). simpl.
      split; [reflexivity |]. split; [apply list_lookup_insert_eq; exact Hclt |]. auto.
    + exists j, cT. split; [reflexivity |].
      split; [simpl; rewrite list_lookup_insert_ne by exact Hcj; exact Hj |]. auto.
Qed.

Lemma linksBounded_loop (n : nat) (st : State) :
  linksBounded (bankTransactions st) (budgetTransactions st) ->
  linksBounded (bankTransactions (compareLoop R fs n st))
               (budgetTransactions (compareLoop R fs n st)).
Proof.
  intros HL. induction n as [| n IH]; [exact HL |].
  rewrite loop_S. apply linksBounded_step, IH.
Qed.

End LinkBounds.

(** X12.  For a range [dateMatchRangeDays] on which the date arithmetic does
    not overflow: after [compareTransactions] on bank entries that come
    unmatched, every link of a bank entry leads to a budget entry of the same
    amount dated from 0 to [dateMatchRangeDays - 1] days before it, and never
    more than 4166 days before it, however large [dateMatchRangeDays] is:
    the search starts from a closest duration of 99999 hours. *)
Theorem links_lie_in_range_and_cap {lib : GoLib} (R : Z) (fs : list Filter)
    (bank0 budget0 : list Transaction) :
  rangeInBounds R ->
  Forall (fun t => Matching t = None) bank0 ->
  let st := compareTransactions R bank0 budget0 fs in
  forall i t p,
    bankTransactions st !! i = Some t -> Matching t = Some p ->
    exists j cT,
      p = BudgetRef j /\ budgetTransactions st !! j = Some cT
      /\ Amount t = Amount cT
      /\ 0 <= Timestamp t - Timestamp cT < R
      /\ Timestamp t - Timestamp cT <= 4166.
Proof.
  intros _ Hbank st. apply linksBounded_loop. simpl.
  intros i t p Hi HM. rewrite Forall_forall in Hbank.
  rewrite (Hbank t) in HM; [discriminate |]. eapply list_elem_of_lookup_2; eauto.
Qed.

Lemma links_lie_in_range_and_cap_witness :
  let st := compareTransactions (lib := Std.lib Examples.noFiles) 10000
              [Examples.bankJan10]
              [Examples.entry (19732 - 4167) "groceries" (-500);
               Examples.entry (19732 - 4166) "groceries" (-500)] [] in
  exists j cT,
    BudgetRef 1 = BudgetRef j /\ budgetTransactions st !! j = Some cT
    /\ Amount (setMatching Examples.bankJan10 (Some (BudgetRef 1))) = Amount cT
    /\ 0 <= Timestamp (setMatching Examples.bankJan10 (Some (BudgetRef 1))) - Timestamp cT
       < 10000
    /\ Timestamp (setMatching Examples.bankJan10 (Some (BudgetRef 1))) - Timestamp cT
       <= 4166.
Proof.
  intros st.
  apply (links_lie_in_range_and_cap (lib := Std.lib Examples.noFiles) 10000 []
           [Examples.bankJan10]
           [Examples.entry (19732 - 4167) "groceries" (-500);
            Examples.entry (19732 - 4166) "groceries" (-500)]
           ltac:(unfold rangeInBounds, maxRangeDays; lia)
           ltac:(repeat constructor) 0%nat);
    reflexivity.
Defined.

(** X13.  For a range [dateMatchRangeDays] on which the date arithmetic does
    not overflow: in its turn a bank entry that is not filtered and has no
    link gets one exactly when some budget entry of its amount that is not
    matched lies
    from 0 to 4166 days before it and less than [dateMatchRangeDays] days
    away: when the closest candidate fails the date check, no other candidate
    would have passed it. *)
Theorem linked_iff_some_candidate_in_range {lib : GoLib} (R : Z) (fs : list Filter)
    (i : nat) (st : State) (bankT : Transaction) :
  rangeInBounds R ->
  bankTransactions st !! i = Some bankT ->
  Matching bankT = None ->
  isFiltered bankT fs = false ->
  (exists t' p, bankTransactions (matchBankIndex R fs i st) !! i = Some t'
                /\ Matching t' = Some p)
  <-> (exists k cK, budgetTransactions st !! k = Some cK
                    /\ Amount bankT = Amount cK /\ Matching cK = None
                    /\ 0 <= Timestamp bankT - Timestamp cK <= 4166
                    /\ Timestamp bankT - Timestamp cK < R).
Proof.
  intros _ Hi HM Hf.
  destruct (step_cases R fs i st bankT Hi)
    as [(Hf' & _) | [(_ & c & closestT & Hsel & Hc & Hr & Hs) | (_ & Hno & Hb & _)]];
    [congruence | |].
  - split.
    + intros _. apply inDateRange_iff in Hr.
      apply selected_Some in Hsel as (cJ & HcJ & (HA & HMc & HT) & Hcap & _).
      rewrite Hc in HcJ. inversion HcJ; subst cJ.
      exists c, closestT. repeat split; auto; lia.
    + intros _. rewrite Hs. simpl.
      exists (setMatching bankT (Some (BudgetRef c))), (BudgetRef c).
      split; [| reflexivity].
      apply list_lookup_insert_eq. eapply lookup_lt_Some; eauto.
  - split.
    + intros (t' & p & Ht' & HMt'). rewrite Hb, Hi in Ht'. inversion Ht'; subst t'.
      congruence.
    + intros (k & cK & Hk & HA & HMK & Hdays & Hwin). exfalso.
      assert (Hel : eligible bankT cK) by (unfold eligible; repeat split; auto; lia).
      destruct (selected bankT (budgetTransactions st)) as [c |] eqn:Hsel.
      * destruct (selected_Some _ _ _ Hsel) as (cJ & HcJ & (_ & _ & HTJ) & _ & Hbest).
        destruct (Hbest k cK Hk Hel) as [Hle _].
        specialize (Hno c cJ eq_refl HcJ).
        assert (Hin : inDateRange R bankT cJ = true) by (apply inDateRange_iff; lia).
        congruence.
      * pose proof (selected_None _ _ Hsel k cK Hk Hel). lia.
Qed.

Lemma linked_iff_some_candidate_in_range_witness :
  let lib := Std.lib Examples.noFiles in
  let st := {| bankTransactions := [Examples.bankJan10];
               budgetTransactions := [Examples.budgetJan03; Examples.budgetJan05];
               missingTransactions := [] |} in
  exists t' p, bankTransactions (matchBankIndex 7 [] 0 st) !! 0%nat = Some t'
               /\ Matching t' = Some p.
Proof.
  intros lib st.
  apply (linked_iff_some_candidate_in_range (lib := lib) 7 [] 0 st Examples.bankJan10);
    try reflexivity; [unfold rangeInBounds, maxRangeDays; lia |].
  exists 1%nat, Examples.budgetJan05. simpl. repeat split; try reflexivity; lia.
Defined.

Lemma setMatching_restore (t t0 : Transaction) :
  setMatching t None = t0 -> t = setMatching t0 (Matching t).
Proof. intros <-. destruct t; reflexivity. Qed.

Lemma missing_sublist_of_data {lib : GoLib} (fs : list Filter) (l : list Transaction) :
  List.filter (isMissing fs) l `sublist_of` (fun t => setMatching t None) <$> l.
Proof.
  induction l as [| t rest IH]; simpl; [constructor |].
  destruct (isMissing fs t) eqn:Hm.
  - unfold isMissing in Hm. apply andb_prop in Hm as [_ Hm].
    destruct (Matching t) eqn:HM; [discriminate |].
    rewrite (setMatching_None_id t HM). apply sublist_skip, IH.
  - apply sublist_cons, IH.
Qed.

Lemma missing_is_a_sublist_of_the_input_aux {lib : GoLib} (R : Z) (fs : list Filter)
    (bank0 budget0 : list Transaction) :
  Forall (fun t => Matching t = None) bank0 ->
  missingTransactions (compareTransactions R bank0 budget0 fs) `sublist_of` bank0.
Proof.
  intros Hbank.
  assert (Hid : (fun t => setMatching t None) <$> bank0 = bank0).
  { clear budget0. induction Hbank as [| t rest HM _ IH]; [reflexivity |].
    rewrite fmap_cons, IH, (setMatching_None_id t HM). reflexivity. }
  unfold compareTransactions. rewrite loop_missing. simpl.
  set (st := compareLoop R fs (length bank0) _).
  assert (Hdata : (fun t => setMatching t None) <$> bankTransactions st = bank0).
  { unfold st. rewrite loop_bank_data. exact Hid. }
  rewrite take_ge.
  - rewrite <- Hdata. apply missing_sublist_of_data.
  - rewrite <- Hdata, length_fmap. lia.
Qed.

(** X14.  The result of [compareTransactions] on bank entries that come
    unmatched is a sublist of the bank list it was given: entries of the
    input, unchanged, each at most as often as it occurs and in the order of
    the input. *)
Theorem missing_is_a_sublist_of_the_input {lib : GoLib} (R : Z) (fs : list Filter)
    (bank0 budget0 : list Transaction) :
  Forall (fun t => Matching t = None) bank0 ->
  missingTransactions (compareTransactions R bank0 budget0 fs) `sublist_of` bank0.
Proof. apply missing_is_a_sublist_of_the_input_aux. Qed.

Lemma missing_is_a_sublist_of_the_input_witness :
  missingTransactions
    (compareTransactions (lib := Std.lib Examples.noFiles) 7
       [Examples.bankJan10; Examples.bankTransfer; Examples.bankJan11]
       [Examples.budgetJan08] [Examples.transferRule])
  `sublist_of` [Examples.bankJan10; Examples.bankTransfer; Examples.bankJan11].
Proof.
  apply (missing_is_a_sublist_of_the_input (lib := Std.lib Examples.noFiles)).
  repeat constructor.
Defined.

Lemma entry_reported_or_linked {lib : GoLib} (R : Z) (fs : list Filter)
    (bank0 budget0 : list Transaction) (i : nat) (t : Transaction) :
  Forall (fun t => Matching t = None) bank0 ->
  Forall (fun t => Matching t = None) budget0 ->
  bank0 !! i = Some t ->
  isFiltered t fs = false ->
  let st := compareTransactions R bank0 budget0 fs in
  (bankTransactions st !! i = Some t /\ t ∈ missingTransactions st)
  \/ (exists j c,
         budget0 !! j = Some c
         /\ bankTransactions st !! i = Some (setMatching t (Some (BudgetRef j)))
         /\ budgetTransactions st !! j = Some (setMatching c (Some (BankRef i)))
         /\ Amount t = Amount c
         /\ 0 <= Timestamp t - Timestamp c < R).
Proof.
  intros Hbank Hbudget Hi Hf st.
  pose proof (Inv_loop R fs bank0 budget0 Hbank Hbudget (length bank0)) as HI.
  fold (compareTransactions R bank0 budget0 fs) in HI. fold st in HI.
  destruct (lookup_lt_is_Some_2 (bankTransactions st) i) as [t' Ht'].
  { rewrite (inv_bank_length _ _ _ _ _ _ HI). eapply lookup_lt_Some; eauto. }
  assert (Ht : setMatching t' None = t).
  { pose proof (inv_bank_data _ _ _ _ _ _ HI i t' Ht') as Ht0. congruence. }
  destruct (Matching t') as [p |] eqn:HM.
  - right.
    destruct (inv_bank_link _ _ _ _ _ _ HI i t' p Ht' HM)
      as (j & cT & -> & Hj & HMc & HA & HT & Hwin & _).
    pose proof (inv_budget_data _ _ _ _ _ _ HI j cT Hj) as Hc0.
    assert (Ht'eq : t' = setMatching t (Some (BudgetRef j))).
    { rewrite <- HM. apply setMatching_restore. exact Ht. }
    assert (Hceq : cT = setMatching (setMatching cT None) (Some (BankRef i))).
    { rewrite <- HMc. apply setMatching_restore. reflexivity. }
    exists j, (setMatching cT None).
    split; [exact Hc0 |]. split; [rewrite <- Ht'eq; exact Ht' |].
    split; [rewrite <- Hceq; exact Hj |].
    subst t. simpl. split; [exact HA | lia].
  - left. rewrite (setMatching_None_id t' HM) in Ht. subst t'.
    split; [exact Ht' |].
    unfold st, compareTransactions. rewrite loop_missing. simpl.
    fold (compareTransactions R bank0 budget0 fs). fold st.
    rewrite take_ge by (rewrite (inv_bank_length _ _ _ _ _ _ HI); lia).
    apply list_elem_of_In, List.filter_In.
    split; [apply list_elem_of_In; eapply list_elem_of_lookup_2; eauto |].
    unfold isMissing. rewrite Hf, HM. reflexivity.
Qed.

(** X15.  For a range [dateMatchRangeDays] on which the date arithmetic does
    not overflow: after [compareTransactions] on entries that come unmatched,
    a bank entry that is not filtered is either unchanged and in the result, or
    linked with a budget entry of the same amount dated from 0 to
    [dateMatchRangeDays - 1] days before it, the two entries being those of
    the input with the two links set and nothing else changed. *)
Theorem every_entry_is_reported_or_linked {lib : GoLib} (R : Z) (fs : list Filter)
    (bank0 budget0 : list Transaction) (i : nat) (t : Transaction) :
  rangeInBounds R ->
  Forall (fun t => Matching t = None) bank0 ->
  Forall (fun t => Matching t = None) budget0 ->
  bank0 !! i = Some t ->
  isFiltered t fs = false ->
  let st := compareTransactions R bank0 budget0 fs in
  (bankTransactions st !! i = Some t /\ t ∈ missingTransactions st)
  \/ (exists j c,
         budget0 !! j = Some c
         /\ bankTransactions st !! i = Some (setMatching t (Some (BudgetRef j)))
         /\ budgetTransactions st !! j = Some (setMatching c (Some (BankRef i)))
         /\ Amount t = Amount c
         /\ 0 <= Timestamp t - Timestamp c < R).
Proof. intros _. apply entry_reported_or_linked. Qed.

Lemma every_entry_is_reported_or_linked_witness :
  let st := compareTransactions (lib := Std.lib Examples.noFiles) 7
              [Examples.bankJan10; Examples.bankJan11] [Examples.budgetJan08] [] in
  (bankTransactions st !! 1%nat = Some Examples.bankJan11
   /\ Examples.bankJan11 ∈ missingTransactions st)
  \/ (exists j c,
         [Examples.budgetJan08] !! j = Some c
         /\ bankTransactions st !! 1%nat
            = Some (setMatching Examples.bankJan11 (Some (BudgetRef j)))
         /\ budgetTransactions st !! j = Some (setMatching c (Some (BankRef 1)))
         /\ Amount Examples.bankJan11 = Amount c
         /\ 0 <= Timestamp Examples.bankJan11 - Timestamp c < 7).
Proof.
  intros st.
  apply (every_entry_is_reported_or_linked (lib := Std.lib Examples.noFiles) 7 []
           [Examples.bankJan10; Examples.bankJan11] [Examples.budgetJan08] 1
           Examples.bankJan11);
    [unfold rangeInBounds, maxRangeDays; lia
    | repeat constructor | repeat constructor | reflexivity | reflexivity].
Defined.

(** X16.  A bank entry that is not filtered and whose amount no budget entry
    has is reported, the entries coming unmatched. *)
Theorem unknown_amount_is_reported {lib : GoLib} (R : Z) (fs : list Filter)
    (bank0 budget0 : list Transaction) (i : nat) (t : Transaction) :
  Forall (fun t => Matching t = None) bank0 ->
  Forall (fun t => Matching t = None) budget0 ->
  bank0 !! i = Some t ->
  isFiltered t fs = false ->
  Forall (fun c => Amount c <> Amount t) budget0 ->
  t ∈ missingTransactions (compareTransactions R bank0 budget0 fs).
Proof.
  intros Hbank Hbudget Hi Hf Hamount.
  destruct (entry_reported_or_linked R fs bank0 budget0 i t Hbank Hbudget Hi Hf)
    as [[_ Hin] | (j & c & Hj & _ & _ & HA & _)]; [exact Hin |].
  rewrite Forall_forall in Hamount.
  exfalso. apply (Hamount c); [eapply list_elem_of_lookup_2; eauto | congruence].
Qed.

Lemma unknown_amount_is_reported_witness :
  Examples.entry 19732 "BOOKSHOP" (-1999)
  ∈ missingTransactions
      (compareTransactions (lib := Std.lib Examples.noFiles) 7
         [Examples.bankJan10; Examples.entry 19732 "BOOKSHOP" (-1999)]
         [Examples.budgetJan08] []).
Proof.
  apply (unknown_amount_is_reported (lib := Std.lib Examples.noFiles) 7 []
           [Examples.bankJan10; Examples.entry 19732 "BOOKSHOP" (-1999)]
           [Examples.budgetJan08] 1);
    [repeat constructor | repeat constructor | reflexivity | reflexivity |].
  repeat constructor. simpl. lia.
Defined.

Lemma linkedCount_insert (l : list Transaction) (i : nat) (y : Transaction) (p : ref) :
  l !! i = Some y -> Matching y = None ->
  linkedCount (<[i := setMatching y (Some p)]> l) = S (linkedCount l).
Proof.
  intros Hi HM.
  assert (Hy : isLinked y = false) by (unfold isLinked; rewrite HM; reflexivity).
  unfold linkedCount. revert i Hi. induction l as [| x rest IH]; intros i Hi.
  - discriminate.
  - destruct i as [| i]; simpl in Hi.
    + inversion Hi; subst x. simpl. rewrite Hy. reflexivity.
    + simpl. destruct (isLinked x); simpl; rewrite (IH i Hi); reflexivity.
Qed.

Lemma linkedCount_unmatched (l : list Transaction) :
  Forall (fun t => Matching t = None) l -> linkedCount l = 0%nat.
Proof.
  unfold linkedCount. induction 1 as [| t rest HM _ IH]; [reflexivity |].
  assert (Ht : isLinked t = false) by (unfold isLinked; rewrite HM; reflexivity).
  simpl. rewrite Ht. exact IH.
Qed.

Lemma count_partition {lib : GoLib} (fs : list Filter) (l : list Transaction) :
  Forall (fun t => isFiltered t fs = true -> Matching t = None) l ->
  length l
  = (linkedCount l + length (List.filter (isMissing fs) l)
     + length (List.filter (fun t => isFiltered t fs) l))%nat.
Proof.
  unfold linkedCount. induction 1 as [| t rest Ht _ IH]; [reflexivity |].
  simpl. unfold isMissing at 1, isLinked at 1.
  destruct (isFiltered t fs) eqn:Hf.
  - rewrite (Ht eq_refl). simpl. lia.
  - destruct (Matching t); simpl; lia.
Qed.

Lemma filtered_count_data {lib : GoLib} (fs : list Filter) (l : list Transaction) :
  length (List.filter (fun t => isFiltered t fs) ((fun t => setMatching t None) <$> l))
  = length (List.filter (fun t => isFiltered t fs) l).
Proof.
  induction l as [| t rest IH]; [reflexivity |].
  rewrite fmap_cons. simpl. rewrite isFiltered_setMatching.
  destruct (isFiltered t fs); simpl; rewrite IH; reflexivity.
Qed.

Lemma linkedCount_loop {lib : GoLib} (R : Z) (fs : list Filter)
    (bank0 budget0 : list Transaction) (n : nat) :
  Forall (fun t => Matching t = None) bank0 ->
  Forall (fun t => Matching t = None) budget0 ->
  let st := compareLoop R fs n
              {| bankTransactions := bank0;
                 budgetTransactions := budget0;
                 missingTransactions := [] |} in
  linkedCount (bankTransactions st) = linkedCount (budgetTransactions st).
Proof.
  intros Hbank Hbudget. induction n as [| n IH]; simpl.
  - rewrite !linkedCount_unmatched by assumption. reflexivity.
  - rewrite loop_S.
    set (s := compareLoop R fs n _) in *. simpl in IH.
    pose proof (Inv_loop R fs bank0 budget0 Hbank Hbudget n) as HI. fold s in HI.
    destruct (bankTransactions s !! n) as [bankT |] eqn:Hn;
      [| rewrite step_out_of_range by exact Hn; exact IH].
    destruct (step_cases R fs n s bankT Hn)
      as [(_ & ->) | [(_ & c & closestT & Hsel & Hc & _ & ->) | (_ & _ & -> & -> & _)]];
      [exact IH | | exact IH].
    apply selected_Some in Hsel as (cJ & HcJ & (_ & HMc & _) & _).
    rewrite Hc in HcJ. inversion HcJ; subst cJ.
    simpl. rewrite !linkedCount_insert; auto.
    eapply inv_bank_rest; eauto.
Qed.

(** X17.  After [compareTransactions] on entries that come unmatched, as
    many bank entries as budget entries have a link, and the bank entries
    are counted by three disjoint kinds: linked, reported, filtered. *)
Theorem links_and_entries_are_accounted_for {lib : GoLib} (R : Z) (fs : list Filter)
    (bank0 budget0 : list Transaction) :
  Forall (fun t => Matching t = None) bank0 ->
  Forall (fun t => Matching t = None) budget0 ->
  let st := compareTransactions R bank0 budget0 fs in
  linkedCount (bankTransactions st) = linkedCount (budgetTransactions st)
  /\ length bank0
     = (linkedCount (bankTransactions st) + length (missingTransactions st)
        + length (List.filter (fun t => isFiltered t fs) bank0))%nat.
Proof.
  intros Hbank Hbudget st.
  split; [apply (linkedCount_loop R fs bank0 budget0 (length bank0)); assumption |].
  pose proof (Inv_loop R fs bank0 budget0 Hbank Hbudget (length bank0)) as HI.
  fold (compareTransactions R bank0 budget0 fs) in HI. fold st in HI.
  assert (Hdata : (fun t => setMatching t None) <$> bankTransactions st = bank0).
  { unfold st, compareTransactions. rewrite loop_bank_data. simpl.
    clear HI st. induction Hbank as [| t rest HM _ IH]; [reflexivity |].
    rewrite fmap_cons, IH, (setMatching_None_id t HM). reflexivity. }
  assert (Hmiss : missingTransactions st
                  = List.filter (isMissing fs) (bankTransactions st)).
  { unfold st, compareTransactions. rewrite loop_missing. simpl.
    fold (compareTransactions R bank0 budget0 fs). fold st.
    rewrite take_ge by (rewrite (inv_bank_length _ _ _ _ _ _ HI); lia). reflexivity. }
  rewrite Hmiss, <- (inv_bank_length _ _ _ _ _ _ HI).
  rewrite <- Hdata, filtered_count_data.
  apply count_partition. apply Forall_forall. intros t Hin Hf.
  apply list_elem_of_lookup in Hin as [i Hi].
  pose proof (inv_bank_data _ _ _ _ _ _ HI i t Hi) as H0.
  assert (Hkeep : bankTransactions st !! i = Some (setMatching t None)).
  { apply loop_bank_filtered; [exact H0 | rewrite isFiltered_setMatching; exact Hf]. }
  rewrite Hi in Hkeep. inversion Hkeep as [Heq]. rewrite Heq. reflexivity.
Qed.

Lemma links_and_entries_are_accounted_for_witness :
  let st := compareTransactions (lib := Std.lib Examples.noFiles) 7
              [Examples.bankJan10; Examples.bankTransfer; Examples.bankJan11]
              [Examples.budgetJan03; Examples.budgetJan08] [Examples.transferRule] in
  linkedCount (bankTransactions st) = linkedCount (budgetTransactions st)
  /\ length [Examples.bankJan10; Examples.bankTransfer; Examples.bankJan11]
     = (linkedCount (bankTransactions st) + length (missingTransactions st)
        + length (List.filter
                    (fun t => isFiltered (lib := Std.lib Examples.noFiles) t
                                [Examples.transferRule])
                    [Examples.bankJan10; Examples.bankTransfer; Examples.bankJan11]))%nat.
Proof.
  intros st.
  apply (links_and_entries_are_accounted_for (lib := Std.lib Examples.noFiles));
    repeat constructor.
Defined.

Lemma data_at_position (l l0 : list Transaction) (i : nat) (t : Transaction) :
  (fun t => setMatching t None) <$> l = (fun t => setMatching t None) <$> l0 ->
  l !! i = Some t ->
  exists t0, l0 !! i = Some t0
             /\ Timestamp t = Timestamp t0 /\ Description t = Description t0
             /\ Details t = Details t0 /\ Amount t = Amount t0.
Proof.
  intros Hdata Hi.
  assert (Hi' : ((fun t => setMatching t None) <$> l0) !! i
                = Some (setMatching t None))
    by (rewrite <- Hdata, list_lookup_fmap, Hi; reflexivity).
  rewrite list_lookup_fmap in Hi'.
  destruct (l0 !! i) as [t0 |]; [| discriminate].
  exists t0. split; [reflexivity |].
  simpl in Hi'. inversion Hi'. auto.
Qed.

(** X18.  [compareTransactions] adds, removes and moves no entry of either
    slice, and writes nothing but links: in the bank slice as in the budget
    slice the length is kept, and so are the date, the description, the
    details and the amount at every position. *)
Theorem compare_writes_only_links {lib : GoLib} (R : Z) (fs : list Filter)
    (bank0 budget0 : list Transaction) :
  let st := compareTransactions R bank0 budget0 fs in
  (fun t => setMatching t None) <$> bankTransactions st
  = (fun t => setMatching t None) <$> bank0
  /\ (fun t => setMatching t None) <$> budgetTransactions st
     = (fun t => setMatching t None) <$> budget0
  /\ length (bankTransactions st) = length bank0
  /\ length (budgetTransactions st) = length budget0
  /\ (forall i t, bankTransactions st !! i = Some t ->
        exists t0, bank0 !! i = Some t0
                   /\ Timestamp t = Timestamp t0 /\ Description t = Description t0
                   /\ Details t = Details t0 /\ Amount t = Amount t0)
  /\ (forall j c, budgetTransactions st !! j = Some c ->
        exists c0, budget0 !! j = Some c0
                   /\ Timestamp c = Timestamp c0 /\ Description c = Description c0
                   /\ Details c = Details c0 /\ Amount c = Amount c0).
Proof.
  intros st.
  assert (Hu : (fun t => setMatching t None) <$> budgetTransactions st
               = (fun t => setMatching t None) <$> budget0)
    by (unfold st, compareTransactions; rewrite loop_budget_data; reflexivity).
  assert (Hb : (fun t => setMatching t None) <$> bankTransactions st
               = (fun t => setMatching t None) <$> bank0)
    by (unfold st, compareTransactions; rewrite loop_bank_data; reflexivity).
  split; [exact Hb |]. split; [exact Hu |].
  split; [rewrite <- (length_fmap (fun t => setMatching t None)), Hb; apply length_fmap |].
  split; [rewrite <- (length_fmap (fun t => setMatching t None)), Hu; apply length_fmap |].
  split.
  - intros i t. apply data_at_position. exact Hb.
  - intros j c. apply data_at_position. exact Hu.
Qed.

(** ** Reading the files and [main] *)

Section MainProperties.
Context {lib : GoLib} {os : GoOS}.

Lemma readRecords_cases (reads : list csvRead) (acc : list (list string)) :
  (CsvError ∈ reads /\ readRecords reads acc = FileError ErrRead)
  \/ (exists records, reads = CsvRecord <$> records
                      /\ readRecords reads acc = FileRecords (acc ++ records)).
Proof.
  revert acc. induction reads as [| [fields |] rest IH]; intros acc; simpl.
  - right. exists []. rewrite app_nil_r. auto.
  - destruct (IH (acc ++ [fields])) as [[Hin ->] | (records & -> & ->)].
    + left. split; [apply elem_of_cons; auto | reflexivity].
    + right. exists (fields :: records). rewrite <- app_assoc. auto.
  - left. split; [apply elem_of_cons; auto | reflexivity].
Qed.

(** X19.  [readFile] gives all or nothing.  For a file that opens, it
    returns every record read up to the end of the file, in order, when no
    read fails; as soon as one read fails it returns the read error, and
    none of the records read before it.  It returns the open error exactly
    when the file does not open. *)
Theorem readFile_all_or_nothing (p : string) :
  (readFile p = FileError ErrOpen <-> os_Open p = None)
  /\ (forall reads, os_Open p = Some reads ->
        (CsvError ∈ reads /\ readFile p = FileError ErrRead)
        \/ (exists records, reads = CsvRecord <$> records
                            /\ readFile p = FileRecords records)).
Proof.
  unfold readFile. split.
  - destruct (os_Open p) as [reads |]; [| tauto].
    split; [| discriminate].
    destruct (readRecords_cases reads []) as [[_ ->] | (records & _ & ->)]; discriminate.
  - intros reads ->. apply (readRecords_cases reads []).
Qed.

Lemma main_report (missing : list Transaction) :
  main = ExitReport missing ->
  exists arg0 bankPath budgetPath bankRecords budgetRecords bank budget workingDir filters,
    os_Args = [arg0; bankPath; budgetPath]
    /\ readFile bankPath = FileRecords bankRecords
    /\ parseBankTransactions bankRecords = Ok bank
    /\ readFile budgetPath = FileRecords budgetRecords
    /\ parseBudgetTransactions budgetRecords = Ok budget
    /\ filepath_AbsDir arg0 = Some workingDir
    /\ loadFilters (filepath_Join workingDir FilterFileName) = Ok filters
    /\ missing
       = missingTransactions (compareTransactions dateMatchRangeDays bank budget filters).
Proof.
  unfold main.
  destruct os_Args as [| arg0 [| bankPath [| budgetPath [| x rest]]]]; try discriminate.
  destruct (readFile bankPath) as [bankRecords | e] eqn:Hrb; [| discriminate].
  destruct (parseBankTransactions bankRecords) as [bank | e |] eqn:Hpb; try discriminate.
  destruct (readFile budgetPath) as [budgetRecords | e] eqn:Hru; [| discriminate].
  destruct (parseBudgetTransactions budgetRecords) as [budget | e |] eqn:Hpu;
    try discriminate.
  destruct (filepath_AbsDir arg0) as [workingDir |] eqn:Hdir; [| discriminate].
  simpl.
  destruct (loadFilters (filepath_Join workingDir FilterFileName)) as [filters | e |]
    eqn:Hlf; try discriminate.
  intros H. inversion H; subst missing.
  exists arg0, bankPath, budgetPath, bankRecords, budgetRecords, bank, budget,
    workingDir, filters.
  repeat split; auto.
Qed.

(** X20.  When [main] reaches its report, the program was given two paths,
    both files were read to their end, the bank statement had a header, and
    the filters were loaded from [filter.json] in the directory of the
    executable; the transactions reported are parsed bank transactions, in the
    order of the statement, none of them filtered; and every parsed bank
    transaction that is not filtered is either reported or has the amount of a
    budget transaction dated from 0 to 6 days before it. *)
Theorem main_reports_the_unmatched_bank_transactions (missing : list Transaction) :
  main = ExitReport missing ->
  exists arg0 bankPath budgetPath bankRecords budgetRecords bank budget workingDir filters,
    os_Args = [arg0; bankPath; budgetPath]
    /\ readFile bankPath = FileRecords bankRecords
    /\ parseBankTransactions bankRecords = Ok bank
    /\ readFile budgetPath = FileRecords budgetRecords
    /\ parseBudgetTransactions budgetRecords = Ok budget
    /\ filepath_AbsDir arg0 = Some workingDir
    /\ loadFilters (filepath_Join workingDir FilterFileName) = Ok filters
    /\ missing `sublist_of` bank
    /\ Forall (fun t => isFiltered t filters = false) missing
    /\ Forall (fun t =>
                 isFiltered t filters = false ->
                 t ∈ missing
                 \/ exists c, c ∈ budget /\ Amount t = Amount c
                              /\ 0 <= Timestamp t - Timestamp c < 7) bank.
Proof.
  intros Hmain.
  destruct (main_report missing Hmain)
    as (arg0 & bankPath & budgetPath & bankRecords & budgetRecords & bank & budget
        & workingDir & filters & Hargs & Hrb & Hpb & Hru & Hpu & Hdir & Hlf & ->).
  exists arg0, bankPath, budgetPath, bankRecords, budgetRecords, bank, budget,
    workingDir, filters.
  pose proof (parseBankTransactions_unmatched _ _ Hpb) as Hbank.
  pose proof (parseBudgetTransactions_unmatched _ _ Hpu) as Hbudget.
  repeat (split; [assumption |]).
  split; [apply missing_is_a_sublist_of_the_input_aux; exact Hbank |].
  split.
  - apply Forall_forall. intros t Hin.
    unfold compareTransactions in Hin. rewrite loop_missing in Hin. simpl in Hin.
    apply list_elem_of_In, List.filter_In in Hin as [_ Hm].
    unfold isMissing in Hm. apply andb_prop in Hm as [Hm _].
    destruct (isFiltered t filters); [discriminate | reflexivity].
  - apply Forall_forall. intros t Hin Hf.
    apply list_elem_of_lookup in Hin as [i Hi].
    destruct (entry_reported_or_linked dateMatchRangeDays filters bank budget i t
                Hbank Hbudget Hi Hf)
      as [[_ Hmiss] | (j & c & Hj & _ & _ & HA & Hwin)]; [left; exact Hmiss | right].
    exists c. split; [eapply list_elem_of_lookup_2; eauto |].
    unfold dateMatchRangeDays in Hwin. auto.
Qed.

Lemma parseBank_error (bankRecords : list (list string)) (e : error) :
  parseBankTransactions bankRecords = Err e ->
  e = ErrNoStart /\ Forall (fun r => isHeaderRecord r = false) bankRecords.
Proof.
  unfold parseBankTransactions.
  destruct (findStart_cases bankRecords 0 (-1))
    as [(Hall & ->) | (k & h & _ & _ & _ & ->)].
  - simpl. intros H. inversion H. auto.
  - destruct (Z.ltb_spec (0 + Z.of_nat k + 2) 0) as [? | _]; [lia |].
    intros H. exfalso. eapply parseRecords_no_error; eauto.
Qed.

Lemma parseBank_panic (bankRecords : list (list string)) :
  parseBankTransactions bankRecords = Panic ->
  0 <= findStart bankRecords 0 (-1)
  /\ exists r, r ∈ drop (Z.to_nat (findStart bankRecords 0 (-1))) bankRecords
               /\ parseTransaction r 0 1 2 (-1) = Panic.
Proof.
  unfold parseBankTransactions.
  destruct (Z.ltb_spec (findStart bankRecords 0 (-1)) 0) as [? | Hpos]; [discriminate |].
  set (rest := drop _ bankRecords).
  destruct (parseRecords_cases rest 0 1 2 (-1) []) as [[Hex _] | [_ ->]]; [| discriminate].
  intros _. split; [exact Hpos |].
  apply Exists_exists in Hex as (r & Hr & Hp). eauto.
Qed.

Lemma parseBudget_panic (budgetRecords : list (list string)) :
  parseBudgetTransactions budgetRecords = Panic ->
  exists r, r ∈ drop 1 budgetRecords /\ parseTransaction r 0 2 4 3 = Panic.
Proof.
  unfold parseBudgetTransactions.
  destruct (parseRecords_cases (drop 1 budgetRecords) 0 2 4 3 [])
    as [[Hex _] | [_ ->]]; [| discriminate].
  intros _. apply Exists_exists in Hex as (r & Hr & Hp). eauto.
Qed.

Lemma loadFilters_no_panic (filterPath : string) : loadFilters filterPath <> Panic.
Proof.
  unfold loadFilters.
  destruct (ioutil_ReadFile filterPath) as [buf |]; [| discriminate].
  destruct (json_Unmarshal buf); discriminate.
Qed.

(** X21.  How [main] fails.  It stops on its arguments exactly when they
    are not three, whatever the files hold.  The only parse error that stops
    it is a bank statement without header record: no record that fails to
    parse, and nothing in the budget file, is an error of the run.  And it
    panics only when its arguments are three and either a record of the bank
    file, at or after the start that the header scan found, makes
    [parseTransaction] panic with the columns of the bank profile, or the
    bank file parsed and a record of the budget file after the first does so
    with the columns of the budget profile. *)
Theorem main_failures :
  (main = ExitFatal FatalArgs <-> length os_Args <> 3%nat)
  /\ (forall p e,
        main = ExitFatal (FatalParse p e) ->
        e = ErrNoStart /\ os_Args !! 1%nat = Some p
        /\ exists records, readFile p = FileRecords records
                           /\ Forall (fun r => isHeaderRecord r = false) records)
  /\ (main = ExitPanic ->
      exists arg0 bankPath budgetPath,
        os_Args = [arg0; bankPath; budgetPath]
        /\ ((exists records r,
               readFile bankPath = FileRecords records
               /\ 0 <= findStart records 0 (-1)
               /\ r ∈ drop (Z.to_nat (findStart records 0 (-1))) records
               /\ parseTransaction r 0 1 2 (-1) = Panic)
            \/ (exists bankRecords bank records r,
                  readFile bankPath = FileRecords bankRecords
                  /\ parseBankTransactions bankRecords = Ok bank
                  /\ readFile budgetPath = FileRecords records
                  /\ r ∈ drop 1 records
                  /\ parseTransaction r 0 2 4 3 = Panic))).
Proof.
  unfold main.
  destruct os_Args as [| arg0 [| bankPath [| budgetPath [| x rest]]]];
    try (split; [split; [intros _; simpl; lia | reflexivity]
                | split; [intros p e H; discriminate | intros H; discriminate]]).
  assert (Hlen : length [arg0; bankPath; budgetPath] <> 3%nat -> False)
    by (simpl; lia).
  destruct (readFile bankPath) as [bankRecords | e0] eqn:Hrb;
    [| split; [split; [discriminate | tauto]
              | split; [intros p e H; discriminate | intros H; discriminate]]].
  destruct (parseBankTransactions bankRecords) as [bank | e0 |] eqn:Hpb.
  - destruct (readFile budgetPath) as [budgetRecords | e0] eqn:Hru;
      [| split; [split; [discriminate | tauto]
                | split; [intros p e H; discriminate | intros H; discriminate]]].
    destruct (parseBudgetTransactions budgetRecords) as [budget | e0 |] eqn:Hpu.
    + destruct (filepath_AbsDir arg0) as [workingDir |];
        [| split; [split; [discriminate | tauto]
                  | split; [intros p e H; discriminate | intros H; discriminate]]].
      simpl.
      destruct (loadFilters (filepath_Join workingDir FilterFileName)) as [filters | e0 |]
        eqn:Hlf.
      * split; [split; [discriminate | tauto]
               | split; [intros p e H; discriminate | intros H; discriminate]].
      * split; [split; [discriminate | tauto]
               | split; [intros p e H; discriminate | intros H; discriminate]].
      * exfalso. eapply loadFilters_no_panic; eauto.
    + exfalso. eapply (parseRecords_no_error (drop 1 budgetRecords)); eauto.
    + split; [split; [discriminate | tauto] |].
      split; [intros p e H; discriminate |].
      intros _. destruct (parseBudget_panic _ Hpu) as (r & Hr & Hp).
      exists arg0, bankPath, budgetPath. split; [reflexivity |]. right.
      exists bankRecords, bank, budgetRecords, r. auto.
  - split; [split; [discriminate | tauto] |].
    split; [| intros H; discriminate].
    intros p e H. inversion H; subst p e.
    destruct (parseBank_error _ _ Hpb) as [-> Hall].
    split; [reflexivity |]. split; [reflexivity |]. eauto.
  - split; [split; [discriminate | tauto] |].
    split; [intros p e H; discriminate |].
    intros _. destruct (parseBank_panic _ Hpb) as (Hpos & r & Hr & Hp).
    exists arg0, bankPath, budgetPath. split; [reflexivity |]. left.
    exists bankRecords, r. auto.
Qed.

End MainProperties.

Lemma main_reports_the_unmatched_bank_transactions_witness :
  let lib := Std.lib MoreExamples.filterFiles in
  let os := StdOS.os ["budget-verifier"; "bank.csv"; "budget.csv"]%string
              MoreExamples.csvFiles "/opt/budget" in
  exists arg0 bankPath budgetPath bankRecords budgetRecords bank budget workingDir filters,
    os_Args = [arg0; bankPath; budgetPath]
    /\ readFile bankPath = FileRecords bankRecords
    /\ parseBankTransactions bankRecords = Ok bank
    /\ readFile budgetPath = FileRecords budgetRecords
    /\ parseBudgetTransactions budgetRecords = Ok budget
    /\ filepath_AbsDir arg0 = Some workingDir
    /\ loadFilters (filepath_Join workingDir FilterFileName) = Ok filters
    /\ [Examples.entry 19725 "LUNCH" (-1200)] `sublist_of` bank
    /\ Forall (fun t => isFiltered t filters = false)
         [Examples.entry 19725 "LUNCH" (-1200)]
    /\ Forall (fun t =>
                 isFiltered t filters = false ->
                 t ∈ [Examples.entry 19725 "LUNCH" (-1200)]
                 \/ exists c, c ∈ budget /\ Amount t = Amount c
                              /\ 0 <= Timestamp t - Timestamp c < 7) bank.
Proof.
  intros lib os.
  apply (main_reports_the_unmatched_bank_transactions (lib := lib) (os := os)).
  vm_compute. reflexivity.
Defined.
